(** * Elasticsearch span reader of Jaeger: a shallow embedding

    This development embeds the Elasticsearch span reader of the Jaeger
    storage layer ([internal/storage/elasticsearch/spanstore]): index-name
    resolution, query building, validation, tag merging and the paginated
    multi-read of traces.  The repository snapshot carries the reader's
    test file only ([reader_test.go]); the definitions below marked
    [Modelled from the spec:] follow the specification of the reader and
    agree with every expectation of that test file that they cover.
    The span warnings of [internal/jptrace] and the Kafka authentication
    configuration of [internal/storage/kafka/auth] are embedded from their
    source.

    Conventions:
    - a Go [string] is a [String.string] (bytes as ascii characters);
    - a Go [time.Time] is a [Z] number of nanoseconds since the Unix epoch
      (UTC), a [time.Duration] a [Z] number of nanoseconds;
    - a Go [map] iterated by the code is an association list, listed in the
      (unspecified) order in which Go's [range] visits it;
    - a Go [error] is a value of the inductive type [Error];
    - a Go [float64] is a [spec_float] of binary64 ([prec = 53], [emax = 1024]). *)

From Stdlib Require Import ZArith List String Ascii Bool Lia.
From Stdlib Require Import SpecFloat.
Import ListNotations.

Open Scope string_scope.
Open Scope Z_scope.
Set Warnings "-register-all".

(* ------------------------------------------------------------------ *)
(** ** Go string helpers *)

Module GoStrings.

(** [strings.HasPrefix] *)
Fixpoint hasPrefix (s p : string) : bool :=
  match p, s with
  | EmptyString, _ => true
  | String c p', String d s' => Ascii.eqb c d && hasPrefix s' p'
  | String _ _, EmptyString => false
  end.

(** [strings.ReplaceAll(s, old, new)]: leftmost non-overlapping occurrences
    of [old] are replaced; with an empty [old], [new] is inserted before
    every byte and at the end (Go inserts at rune boundaries; the model
    treats every byte as one rune). *)
Fixpoint replaceAllAux (fuel : nat) (s old new : string) : string :=
  match fuel with
  | O => s
  | S fuel' =>
      match s with
      | EmptyString => EmptyString
      | String c s' =>
          if hasPrefix s old
          then new ++ replaceAllAux fuel' (substring (length old) (length s) s) old new
          else String c (replaceAllAux fuel' s' old new)
      end
  end.

Fixpoint insertEverywhere (s new : string) : string :=
  match s with
  | EmptyString => new
  | String c s' => new ++ String c (insertEverywhere s' new)
  end.

Definition replaceAll (s old new : string) : string :=
  match old with
  | EmptyString => insertEverywhere s new
  | String _ _ => replaceAllAux (length s) s old new
  end.

(** Decimal rendering of a natural number. *)
Definition digitChar (d : Z) : ascii := ascii_of_nat (48 + Z.to_nat d).

Fixpoint natDigits (fuel : nat) (n : Z) (acc : string) : string :=
  match fuel with
  | O => acc
  | S fuel' =>
      let acc' := String (digitChar (n mod 10)) acc in
      if n <? 10 then acc' else natDigits fuel' (n / 10) acc'
  end.

Definition showNat (n : Z) : string := natDigits (S (Z.to_nat (Z.log2 (Z.max 1 n)))) n EmptyString.

Fixpoint zeros (k : nat) : string :=
  match k with O => EmptyString | S k' => String "0"%char (zeros k') end.

(** [appendInt(b, x, width)] of Go's time package: sign, then the absolute
    value left-padded with zeros to [width] digits. *)
Definition appendInt (x : Z) (width : nat) : string :=
  let d := showNat (Z.abs x) in
  (if x <? 0 then "-" else "") ++ zeros (width - length d) ++ d.

End GoStrings.
Import GoStrings.

(* ------------------------------------------------------------------ *)
(** ** Time and Go's [time.Format] *)

Module GoTime.

Definition Nanosecond := 1.
Definition Microsecond := 1000.
Definition Millisecond := 1000000.
Definition Second := 1000000000.
Definition Minute := 60 * Second.
Definition Hour := 60 * Minute.

(** [time.Time{}] (January 1, year 1, 00:00:00 UTC) as Unix nanoseconds. *)
Definition zeroTime : Z := -62135596800 * Second.
Definition IsZero (t : Z) : bool := t =? zeroTime.

(** Civil date of a day count since 1970-01-01 (proleptic Gregorian). *)
Definition civilFromDays (days : Z) : Z * Z * Z :=
  let z := days + 719468 in
  let era := z / 146097 in
  let doe := z - era * 146097 in
  let yoe := (doe - doe / 1460 + doe / 36524 - doe / 146096) / 365 in
  let y := yoe + era * 400 in
  let doy := doe - (365 * yoe + yoe / 4 - yoe / 100) in
  let mp := (5 * doy + 2) / 153 in
  let d := doy - (153 * mp + 2) / 5 + 1 in
  let m := if mp <? 10 then mp + 3 else mp - 9 in
  ((if m <=? 2 then y + 1 else y), m, d).

(** [time.Date(year, month, day, hour, min, sec, nsec, time.UTC)]. *)
Definition daysFromCivil (y m d : Z) : Z :=
  let y' := if m <=? 2 then y - 1 else y in
  let era := y' / 400 in
  let yoe := y' - era * 400 in
  let mp := if m >? 2 then m - 3 else m + 9 in
  let doy := (153 * mp + 2) / 5 + d - 1 in
  let doe := yoe * 365 + yoe / 4 - yoe / 100 + doy in
  era * 146097 + doe - 719468.

Definition Date (y m d hh mm ss ns : Z) : Z :=
  ((daysFromCivil y m d * 86400 + hh * 3600 + mm * 60 + ss) * Second) + ns.

(** Calendar fields of a UTC instant. *)
Record Fields := { fYear : Z; fMonth : Z; fDay : Z; fHour : Z; fMinute : Z; fSecond : Z }.

Definition fields (t : Z) : Fields :=
  let secs := t / Second in
  let days := secs / 86400 in
  let sod := secs mod 86400 in
  let '(y, m, d) := civilFromDays days in
  {| fYear := y; fMonth := m; fDay := d;
     fHour := sod / 3600; fMinute := (sod mod 3600) / 60; fSecond := sod mod 60 |}.

(** [t.Format(layout)] for the numeric layout elements ("2006", "06",
    "01", "1", "02", "2", "15", "03", "3", "04", "4", "05", "5"); any other
    byte is copied literally.  The named elements (month and weekday
    names, AM/PM, zones, fractional seconds) are outside this model; the
    layouts of the reader's tests ("2006-01-02", "2006-01-02-15") use only
    numeric elements. *)
Fixpoint formatAux (fuel : nat) (f : Fields) (layout : string) : string :=
  match fuel with
  | O => EmptyString
  | S fuel' =>
  match layout with
  | EmptyString => EmptyString
  | String c rest =>
      if hasPrefix layout "2006" then appendInt (fYear f) 4 ++ formatAux fuel' f (substring 4 (length layout) layout)
      else if hasPrefix layout "01" then appendInt (fMonth f) 2 ++ formatAux fuel' f (substring 2 (length layout) layout)
      else if hasPrefix layout "02" then appendInt (fDay f) 2 ++ formatAux fuel' f (substring 2 (length layout) layout)
      else if hasPrefix layout "03" then
        appendInt (let h := fHour f mod 12 in if h =? 0 then 12 else h) 2 ++ formatAux fuel' f (substring 2 (length layout) layout)
      else if hasPrefix layout "04" then appendInt (fMinute f) 2 ++ formatAux fuel' f (substring 2 (length layout) layout)
      else if hasPrefix layout "05" then appendInt (fSecond f) 2 ++ formatAux fuel' f (substring 2 (length layout) layout)
      else if hasPrefix layout "06" then appendInt (Z.rem (fYear f) 100) 2 ++ formatAux fuel' f (substring 2 (length layout) layout)
      else if hasPrefix layout "15" then appendInt (fHour f) 2 ++ formatAux fuel' f (substring 2 (length layout) layout)
      else if Ascii.eqb c "1"%char then appendInt (fMonth f) 0 ++ formatAux fuel' f rest
      else if Ascii.eqb c "2"%char then appendInt (fDay f) 0 ++ formatAux fuel' f rest
      else if Ascii.eqb c "3"%char then
        appendInt (let h := fHour f mod 12 in if h =? 0 then 12 else h) 0 ++ formatAux fuel' f rest
      else if Ascii.eqb c "4"%char then appendInt (fMinute f) 0 ++ formatAux fuel' f rest
      else if Ascii.eqb c "5"%char then appendInt (fSecond f) 0 ++ formatAux fuel' f rest
      else String c (formatAux fuel' f rest)
  end
  end.

Definition Format (t : Z) (layout : string) : string :=
  formatAux (length layout) (fields t) layout.

End GoTime.
Import GoTime.

(* ------------------------------------------------------------------ *)
(** ** Index-name resolution *)

Module Indices.

Definition spanIndexBaseName := "jaeger-span-".
Definition serviceIndexBaseName := "jaeger-service-".
Definition IndexPrefixSeparator := "-".

(** [config.IndexPrefix.Apply]: a configured prefix is put in front of the
    base name with the separator. *)
Definition applyPrefix (prefix indexName : string) : string :=
  if String.eqb prefix "" then indexName else prefix ++ IndexPrefixSeparator ++ indexName.

(** [indexWithDate(indexPrefix, indexDateLayout, date)] *)
Definition indexWithDate (indexPrefix indexDateLayout : string) (date : Z) : string :=
  indexPrefix ++ Format date indexDateLayout.

Definition lastName (l : list string) : option string :=
  match rev l with [] => None | x :: _ => Some x end.

(** Modelled from the spec: [timeRangeIndices] (reader.go is not part of
    the snapshot).  "one name per rollover-granularity bucket spanning
    [startTime, endTime] inclusive, iterating from endTime backward to
    startTime": the bucket of [endTime] is visited, then [endTime] moves by
    [reduceDuration] (a negative duration) while it is after [startTime] and
    its name differs from the name of the [startTime] bucket; a name equal
    to the last one emitted is not repeated; the [startTime] bucket closes
    the list.  The loop of the Go code runs until the window is exhausted;
    here it runs on [fuel] steps and [None] stands for a loop that would not
    stop ([reduceDuration >= 0]). *)
Fixpoint timeRangeLoop (fuel : nat) (indexName indexDateLayout firstIndex : string)
    (startTime endTime reduceDuration : Z) (indices : list string) : option (list string) :=
  let currentIndex := indexWithDate indexName indexDateLayout endTime in
  if negb (String.eqb currentIndex firstIndex) && (startTime <? endTime) then
    match fuel with
    | O => None
    | S fuel' =>
        let indices' :=
          match lastName indices with
          | Some l => if String.eqb l currentIndex then indices else app indices [currentIndex]
          | None => app indices [currentIndex]
          end in
        timeRangeLoop fuel' indexName indexDateLayout firstIndex startTime (endTime + reduceDuration)
          reduceDuration indices'
    end
  else Some (app indices [firstIndex]).

Definition timeRangeIndices (indexName indexDateLayout : string) (startTime endTime reduceDuration : Z)
    : option (list string) :=
  let fuel := S (Z.to_nat ((endTime - startTime) / Z.max 1 (- reduceDuration))) in
  timeRangeLoop fuel indexName indexDateLayout (indexWithDate indexName indexDateLayout startTime)
    startTime endTime reduceDuration [].

(** The type of the reader's resolver: [timeRangeIndexFn]. *)
Definition timeRangeIndexFn := string -> string -> Z -> Z -> Z -> option (list string).

(** Modelled from the spec: [getTimeRangeIndexFn].  With read/write aliases
    a single alias name is returned, [indexPrefix + "read"] or
    [indexPrefix + readAliasSuffix] when a suffix is configured, whatever
    the window; otherwise the time buckets are enumerated. *)
Definition getTimeRangeIndexFn (useReadWriteAliases : bool) (readAliasSuffix : string) : timeRangeIndexFn :=
  if useReadWriteAliases then
    let readAlias := if String.eqb readAliasSuffix "" then "read" else readAliasSuffix in
    fun indexPrefix _ _ _ _ => Some [indexPrefix ++ readAlias]
  else timeRangeIndices.

(** Modelled from the spec: [addRemoteReadClusters].  Every resolved name
    is followed by one copy per remote cluster, [cluster ++ ":" ++ name],
    in the configured cluster order. *)
Definition withClusters (remoteReadClusters : list string) (indices : list string) : list string :=
  flat_map (fun index => index :: map (fun c => c ++ ":" ++ index) remoteReadClusters) indices.

Definition addRemoteReadClusters (fn : timeRangeIndexFn) (remoteReadClusters : list string) : timeRangeIndexFn :=
  fun indexName indexDateLayout startTime endTime reduceDuration =>
    match fn indexName indexDateLayout startTime endTime reduceDuration with
    | None => None
    | Some jaegerIndices =>
        match remoteReadClusters with
        | [] => Some jaegerIndices
        | _ => Some (withClusters remoteReadClusters jaegerIndices)
        end
    end.

End Indices.
Import Indices.

(* ------------------------------------------------------------------ *)
(** ** Reader configuration *)

Module Config.

(** [SpanReaderParams] (the fields the reader's behaviour depends on). *)
Record SpanReaderParams := {
  MaxDocCount : Z;
  MaxSpanAge : Z;
  SpanIndexDateLayout : string;
  ServiceIndexDateLayout : string;
  IndexPrefix : string;
  TagDotReplacement : string;
  ReadAliasSuffix : string;
  UseReadWriteAliases : bool;
  RemoteReadClusters : list string
}.

(** [SpanReader] *)
Record SpanReader := {
  maxSpanAge : Z;
  maxDocCount : Z;
  spanIndexPrefix : string;
  serviceIndexPrefix : string;
  spanDateLayout : string;
  serviceDateLayout : string;
  dotReplacement : string;
  useReadWriteAliases : bool;
  readAliasSuffix : string;
  remoteReadClusters : list string
}.

(** Fifty years, the window used when aliases are on. *)
Definition dawnOfTimeSpanAge : Z := Hour * 24 * 365 * 50.

(** Modelled from the spec: [NewSpanReader].  With aliases the query
    window is widened to [dawnOfTimeSpanAge] (the value the test
    [TestNewSpanReader] expects). *)
Definition NewSpanReader (p : SpanReaderParams) : SpanReader :=
  {| maxSpanAge := if UseReadWriteAliases p then dawnOfTimeSpanAge else MaxSpanAge p;
     maxDocCount := MaxDocCount p;
     spanIndexPrefix := applyPrefix (IndexPrefix p) spanIndexBaseName;
     serviceIndexPrefix := applyPrefix (IndexPrefix p) serviceIndexBaseName;
     spanDateLayout := SpanIndexDateLayout p;
     serviceDateLayout := ServiceIndexDateLayout p;
     dotReplacement := TagDotReplacement p;
     useReadWriteAliases := UseReadWriteAliases p;
     readAliasSuffix := ReadAliasSuffix p;
     remoteReadClusters := RemoteReadClusters p |}.

(** The reader's [timeRangeIndices] field. *)
Definition readerTimeRangeIndices (r : SpanReader) : timeRangeIndexFn :=
  addRemoteReadClusters (getTimeRangeIndexFn (useReadWriteAliases r) (readAliasSuffix r))
    (remoteReadClusters r).

Definition defaultParams : SpanReaderParams :=
  {| MaxDocCount := 10000; MaxSpanAge := 0; SpanIndexDateLayout := ""; ServiceIndexDateLayout := "";
     IndexPrefix := ""; TagDotReplacement := "@"; ReadAliasSuffix := ""; UseReadWriteAliases := false;
     RemoteReadClusters := [] |}.

End Config.
Import Config.

(** The cases of [TestSpanReaderIndices]: span and service names for the
    instant 2019-10-10 05:00 UTC. *)
Definition indicesOf (p : SpanReaderParams) : option (list string) :=
  let r := NewSpanReader p in
  let date := Date 2019 10 10 5 0 0 0 in
  match readerTimeRangeIndices r (spanIndexPrefix r) (spanDateLayout r) date date (-1 * Hour),
        readerTimeRangeIndices r (serviceIndexPrefix r) (serviceDateLayout r) date date (-24 * Hour) with
  | Some a, Some b => Some (app a b)
  | _, _ => None
  end.

(** The cases of [TestSpanReaderFindIndices]. *)
Definition today := Date 1995 4 21 4 12 19 95.


(* ------------------------------------------------------------------ *)
(** ** Go's [strconv] number parsing, as used by [json.Number] *)

Module Strconv.

Definition isDigit (c : ascii) : bool :=
  let n := nat_of_ascii c in (48 <=? n)%nat && (n <=? 57)%nat.

Definition digitVal (c : ascii) : Z := Z.of_nat (nat_of_ascii c) - 48.

(** [lower(c)] of [strconv]: [c | ('x' - 'X')]. *)
Definition lowerByte (c : ascii) : ascii := ascii_of_N (N.lor (N_of_ascii c) 32).

Definition isHexLetter (c : ascii) : bool :=
  let n := nat_of_ascii (lowerByte c) in (97 <=? n)%nat && (n <=? 102)%nat.

Definition hexLetterVal (c : ascii) : Z := Z.of_nat (nat_of_ascii (lowerByte c)) - 87.

(** [strconv.ParseInt(s, 10, 64)] succeeds exactly on an optional sign
    followed by at least one decimal digit, with a value in the int64
    range; its error is not used by the reader, only its failure. *)
Fixpoint decimalDigits (s : string) (acc : Z) : option Z :=
  match s with
  | EmptyString => Some acc
  | String c s' => if isDigit c then decimalDigits s' (acc * 10 + digitVal c) else None
  end.

Definition ParseInt64 (s : string) : option Z :=
  let '(neg, body) :=
    match s with
    | String "+"%char s' => (false, s')
    | String "-"%char s' => (true, s')
    | _ => (false, s)
    end in
  match body with
  | EmptyString => None
  | _ =>
      match decimalDigits body 0 with
      | None => None
      | Some un =>
          if neg then (if un <=? 2 ^ 63 then Some (- un) else None)
          else (if un <? 2 ^ 63 then Some un else None)
      end
  end.

(** [strconv.NumError] kinds. *)
Inductive NumErr := ErrSyntax | ErrRange.

Definition numErrText (e : NumErr) : string :=
  match e with ErrSyntax => "invalid syntax" | ErrRange => "value out of range" end.

Definition hexDigit (n : Z) : ascii := ascii_of_nat (Z.to_nat (if n <? 10 then 48 + n else 87 + n)).

(** [strconv.Quote] on bytes: the double quote and the backslash are
    escaped with a backslash, printable ASCII
    is kept, control bytes use their short escapes or [\xNN].  Bytes from
    0x80 are written [\xNN], which is what Go does for bytes that are not
    part of a valid UTF-8 sequence (valid non-ASCII runes are outside this
    model). *)
Fixpoint quoteBody (s : string) : string :=
  match s with
  | EmptyString => EmptyString
  | String c s' =>
      let n := Z.of_nat (nat_of_ascii c) in
      let esc :=
        if n =? 34 then String (ascii_of_nat 92) (String (ascii_of_nat 34) EmptyString)
        else if n =? 92 then "\\"
        else if (32 <=? n) && (n <=? 126) then String c EmptyString
        else if n =? 7 then "\a" else if n =? 8 then "\b" else if n =? 12 then "\f"
        else if n =? 10 then "\n" else if n =? 13 then "\r" else if n =? 9 then "\t"
        else if n =? 11 then "\v"
        else String "\"%char (String "x"%char (String (hexDigit (n / 16)) (String (hexDigit (n mod 16)) EmptyString))) in
      esc ++ quoteBody s'
  end.

Definition dq : string := String (ascii_of_nat 34) EmptyString.

Definition Quote (s : string) : string := dq ++ quoteBody s ++ dq.

(** [NumError.Error()] for [ParseFloat]. *)
Definition parseFloatError (s : string) (e : NumErr) : string :=
  "strconv.ParseFloat: parsing " ++ Quote s ++ ": " ++ numErrText e.

End Strconv.
Import Strconv.

(* ------------------------------------------------------------------ *)
(** ** [strconv.ParseFloat(s, 64)] *)

Module ParseFloat.

Definition prec : Z := 53.
Definition emax : Z := 1024.

(** [special(s)]: an optionally signed, case-insensitive "inf" or
    "infinity", or an unsigned "nan"; the value and the number of bytes
    consumed. *)
Fixpoint commonPrefixLenIgnoreCase (s prefix : string) : nat :=
  match s, prefix with
  | String c s', String p prefix' =>
      let n := nat_of_ascii c in
      let c' := if (65 <=? n)%nat && (n <=? 90)%nat then ascii_of_nat (n + 32) else c in
      if Ascii.eqb c' p then S (commonPrefixLenIgnoreCase s' prefix') else O
  | _, _ => O
  end.

Definition specialInf (neg : bool) (nsign : nat) (s : string) : option (spec_float * nat) :=
  let n := commonPrefixLenIgnoreCase s "infinity" in
  let n := if (3 <? n)%nat && (n <? 8)%nat then 3%nat else n in
  if (n =? 3)%nat || (n =? 8)%nat then Some (S754_infinity neg, (nsign + n)%nat) else None.

Definition special (s : string) : option (spec_float * nat) :=
  match s with
  | EmptyString => None
  | String "+"%char s' => specialInf false 1 s'
  | String "-"%char s' => specialInf true 1 s'
  | String "i"%char _ | String "I"%char _ => specialInf false 0 s
  | String "n"%char _ | String "N"%char _ =>
      if (commonPrefixLenIgnoreCase s "nan" =? 3)%nat then Some (S754_nan, 3%nat) else None
  | _ => None
  end.

(** The state of the mantissa loop of [readFloat].  [mant] keeps every
    significant digit (Go keeps the first 19, or 16 hexadecimal ones, and
    records the others in [trunc]; its decimal fallback re-reads them all,
    so the value it rounds is the value of all the digits). *)
Record Scan := { mant : Z; nd : Z; dp : Z; sawdot : bool; sawdigits : bool; underscores : bool }.

Fixpoint scanMantissa (hex : bool) (s : string) (st : Scan) : Scan * string :=
  match s with
  | EmptyString => (st, s)
  | String c s' =>
      let base := if hex then 16 else 10 in
      if Ascii.eqb c "_"%char then
        scanMantissa hex s' {| mant := mant st; nd := nd st; dp := dp st; sawdot := sawdot st;
                               sawdigits := sawdigits st; underscores := true |}
      else if Ascii.eqb c "."%char then
        if sawdot st then (st, s)
        else scanMantissa hex s' {| mant := mant st; nd := nd st; dp := nd st; sawdot := true;
                                    sawdigits := sawdigits st; underscores := underscores st |}
      else if isDigit c then
        if Ascii.eqb c "0"%char && (nd st =? 0) then
          scanMantissa hex s' {| mant := mant st; nd := nd st; dp := dp st - 1; sawdot := sawdot st;
                                 sawdigits := true; underscores := underscores st |}
        else
          scanMantissa hex s' {| mant := mant st * base + digitVal c; nd := nd st + 1; dp := dp st;
                                 sawdot := sawdot st; sawdigits := true; underscores := underscores st |}
      else if hex && isHexLetter c then
        scanMantissa hex s' {| mant := mant st * 16 + hexLetterVal c; nd := nd st + 1; dp := dp st;
                               sawdot := sawdot st; sawdigits := true; underscores := underscores st |}
      else (st, s)
  end.

(** Exponent digits; like Go, the exponent stops growing once it reaches
    10000. *)
Fixpoint scanExponent (s : string) (e : Z) (und : bool) : Z * bool * string :=
  match s with
  | EmptyString => (e, und, s)
  | String c s' =>
      if isDigit c then scanExponent s' (if e <? 10000 then e * 10 + digitVal c else e) und
      else if Ascii.eqb c "_"%char then scanExponent s' e true
      else (e, und, s)
  end.

(** [underscoreOK]: underscores only between digits, or between a base
    prefix and a digit. *)
Inductive Saw := SawStart | SawDigit | SawUnderscore | SawOther.

Fixpoint underscoreLoop (hex : bool) (s : string) (saw : Saw) : bool :=
  match s with
  | EmptyString => match saw with SawUnderscore => false | _ => true end
  | String c s' =>
      if isDigit c || (hex && isHexLetter c) then underscoreLoop hex s' SawDigit
      else if Ascii.eqb c "_"%char then
        match saw with SawDigit => underscoreLoop hex s' SawUnderscore | _ => false end
      else match saw with SawUnderscore => false | _ => underscoreLoop hex s' SawOther end
  end.

Definition underscoreOK (s : string) : bool :=
  let s := match s with
           | String "+"%char s' | String "-"%char s' => s'
           | _ => s
           end in
  match s with
  | String "0"%char (String b s') =>
      let lb := lowerByte b in
      if Ascii.eqb lb "b"%char || Ascii.eqb lb "o"%char || Ascii.eqb lb "x"%char
      then underscoreLoop (Ascii.eqb lb "x"%char) s' SawDigit
      else underscoreLoop false s SawStart
  | _ => underscoreLoop false s SawStart
  end.

(** [readFloat(s)]: sign, mantissa, exponent; the result is the sign, the
    base (hexadecimal or not), the integer mantissa and the exponent in
    that base, with the unread rest of [s]. *)
Record Read := { rNeg : bool; rHex : bool; rMant : Z; rExp : Z }.

Definition readFloat (s : string) : option (Read * string) :=
  let '(neg, s1) :=
    match s with
    | String "+"%char s' => (false, s')
    | String "-"%char s' => (true, s')
    | _ => (false, s)
    end in
  let '(hex, s2) :=
    match s1 with
    | String "0"%char (String x (String y rest)) =>
        if Ascii.eqb (lowerByte x) "x"%char then (true, String y rest) else (false, s1)
    | _ => (false, s1)
    end in
  let '(st, s3) := scanMantissa hex s2
       {| mant := 0; nd := 0; dp := 0; sawdot := false; sawdigits := false; underscores := false |} in
  if negb (sawdigits st) then None else
  let dp0 := if sawdot st then dp st else nd st in
  let dp1 := if hex then dp0 * 4 else dp0 in
  let ndMant := if hex then nd st * 4 else nd st in
  let expPart :=
    match s3 with
    | String c rest =>
        if Ascii.eqb (lowerByte c) (if hex then "p"%char else "e"%char) then
          let '(esign, rest') :=
            match rest with
            | String "+"%char r => (1, r)
            | String "-"%char r => (-1, r)
            | _ => (1, rest)
            end in
          match rest' with
          | String d _ =>
              if isDigit d then
                let '(e, und, rest'') := scanExponent rest' 0 false in Some (Some (e * esign, und, rest''))
              else None
          | EmptyString => None
          end
        else Some None
    | EmptyString => Some None
    end in
  match expPart with
  | None => None
  | Some ex =>
      let '(dp2, und2, s4) :=
        match ex with
        | Some (e, und, rest) => (dp1 + e, underscores st || und, rest)
        | None => (dp1, underscores st, s3)
        end in
      if hex && match ex with None => true | Some _ => false end then None else
      let consumed := substring 0 (length s - length s4) s in
      if und2 && negb (underscoreOK consumed) then None else
      Some ({| rNeg := neg; rHex := hex; rMant := mant st;
               rExp := if mant st =? 0 then 0 else dp2 - ndMant |}, s4)
  end.

(** Correct rounding to binary64 (round to nearest, ties to even) of
    [m * 10 ^ e] or [m * 2 ^ e], [m >= 0], with the sign [neg]. *)
Definition roundDecimal (neg : bool) (m e : Z) : spec_float :=
  if m =? 0 then S754_zero neg
  else if 0 <=? e then binary_normalize prec emax (cond_Zopp neg (m * 10 ^ e)) 0 neg
  else let '(q, e', l) := SFdiv_core_binary prec emax m 0 (10 ^ (- e)) 0 in
       binary_round_aux prec emax neg q e' l.

Definition roundBinary (neg : bool) (m e : Z) : spec_float :=
  if m =? 0 then S754_zero neg else binary_normalize prec emax (cond_Zopp neg m) e neg.

Definition isInfinity (f : spec_float) : bool :=
  match f with S754_infinity _ => true | _ => false end.

(** [strconv.ParseFloat(s, 64)]: the float, or the kind of its error. *)
Definition ParseFloat64 (s : string) : NumErr + spec_float :=
  match special s with
  | Some (v, n) => if (n =? length s)%nat then inr v else inl ErrSyntax
  | None =>
      match readFloat s with
      | None => inl ErrSyntax
      | Some (r, rest) =>
          match rest with
          | String _ _ => inl ErrSyntax
          | EmptyString =>
              let v := if rHex r then roundBinary (rNeg r) (rMant r) (rExp r)
                       else roundDecimal (rNeg r) (rMant r) (rExp r) in
              if isInfinity v then inl ErrRange else inr v
          end
      end
  end.

End ParseFloat.
Import ParseFloat.

(* ------------------------------------------------------------------ *)
(** ** The stored span model ([dbmodel]) and tag merging *)

Module Tags.

(** A dynamically typed tag value, as the JSON decoder and the code hand it
    over ([any]): the Go types the code distinguishes, and any other value
    with its [%+v] rendering. *)
Inductive TagValue :=
| VBool (b : bool)
| VInt64 (n : Z)
| VFloat64 (f : spec_float)
| VString (s : string)
| VBinary (bs : string)
| VJSONNumber (n : string)
| VOther (repr : string).

(** [dbmodel.ValueType] *)
Inductive ValueType := StringType | BoolType | Int64Type | Float64Type | BinaryType.

(** [dbmodel.KeyValue] *)
Record KeyValue := { Key : string; Type_ : ValueType; Value : TagValue }.

(** [dbmodel.Process]: [Tags] is the canonical tag sequence, [Tag] the
    elevated map ([map[string]any]) listed in iteration order. *)
Record Process := { ProcessServiceName : string; ProcessTags : list KeyValue; ProcessTag : list (string * TagValue) }.

(** [dbmodel.Span] (start time in microseconds since the epoch). *)
Record Span := {
  TraceID : string;
  SpanID : string;
  OperationName : string;
  StartTime : Z;
  Duration : Z;
  SpanTags : list KeyValue;
  SpanTag : list (string * TagValue);
  SpanProcess : Process
}.

(** [%+v] of a tag value, for the message of an unsupported value. *)
Definition renderValue (v : TagValue) : string :=
  match v with
  | VString s | VJSONNumber s | VOther s => s
  | VBool b => if b then "true" else "false"
  | VInt64 n => appendInt n 0
  | VBinary bs => bs
  | VFloat64 _ => "float64"
  end.

(** Modelled from the spec: [convertTagField].  The key gets back its dots
    (the configured replacement of "." is replaced by "."); the value is
    kept with its type for bool, int64, float64 (integral or not), string
    and []byte; a [json.Number] is parsed as an int64, then as a float64,
    and when both fail the value becomes the string
    "invalid tag type in <value>: <parse error>"; any other value becomes
    "invalid tag type in <value>" (the expectation of [TestTagsMap]). *)
Definition convertTagField (dotReplacement k : string) (v : TagValue) : KeyValue :=
  let dKey := replaceAll k dotReplacement "." in
  match v with
  | VInt64 _ => {| Key := dKey; Type_ := Int64Type; Value := v |}
  | VFloat64 _ => {| Key := dKey; Type_ := Float64Type; Value := v |}
  | VBool _ => {| Key := dKey; Type_ := BoolType; Value := v |}
  | VString _ => {| Key := dKey; Type_ := StringType; Value := v |}
  | VBinary _ => {| Key := dKey; Type_ := BinaryType; Value := v |}
  | VJSONNumber n =>
      match ParseInt64 n with
      | Some i => {| Key := dKey; Type_ := Int64Type; Value := VInt64 i |}
      | None =>
          match ParseFloat64 n with
          | inr f => {| Key := dKey; Type_ := Float64Type; Value := VFloat64 f |}
          | inl e => {| Key := dKey; Type_ := StringType;
                        Value := VString ("invalid tag type in " ++ n ++ ": " ++ parseFloatError n e) |}
          end
      end
  | VOther r => {| Key := dKey; Type_ := StringType; Value := VString ("invalid tag type in " ++ r) |}
  end.

(** Modelled from the spec: [mergeNestedAndElevatedTags].  The canonical
    tags come first, then one converted tag per entry of the elevated map,
    in iteration order. *)
Definition mergeNestedAndElevatedTags (dotReplacement : string) (nestedTags : list KeyValue)
    (elevatedTags : list (string * TagValue)) : list KeyValue :=
  app nestedTags (map (fun '(k, v) => convertTagField dotReplacement k v) elevatedTags).

(** Modelled from the spec: [mergeAllNestedAndElevatedTagsOfSpan].  The
    process tags and the span tags are merged independently, and both
    elevated maps are emptied. *)
Definition mergeAllNestedAndElevatedTagsOfSpan (dotReplacement : string) (span : Span) : Span :=
  let p := SpanProcess span in
  {| TraceID := TraceID span;
     SpanID := SpanID span;
     OperationName := OperationName span;
     StartTime := StartTime span;
     Duration := Duration span;
     SpanTags := mergeNestedAndElevatedTags dotReplacement (SpanTags span) (SpanTag span);
     SpanTag := [];
     SpanProcess := {| ProcessServiceName := ProcessServiceName p;
                       ProcessTags := mergeNestedAndElevatedTags dotReplacement (ProcessTags p) (ProcessTag p);
                       ProcessTag := [] |} |}.

(** The span of a case of [TestTagsMap]: one canonical tag, and the same
    elevated map on the span and on its process. *)
Definition testingTags : list KeyValue :=
  [ {| Key := "testing-key"; Type_ := StringType; Value := VString "testing-value" |} ].

Definition tagsMapSpan (fieldTags : list (string * TagValue)) : Span :=
  {| TraceID := ""; SpanID := ""; OperationName := ""; StartTime := 0; Duration := 0;
     SpanTags := testingTags; SpanTag := fieldTags;
     SpanProcess := {| ProcessServiceName := ""; ProcessTags := testingTags; ProcessTag := fieldTags |} |}.

(** The result of a case of [TestTagsMap] (dot replacement ":"), and what
    the test expects of it. *)
Definition tagsMapResult (fieldTags : list (string * TagValue)) : Span :=
  mergeAllNestedAndElevatedTagsOfSpan ":" (tagsMapSpan fieldTags).

Definition tagsMapExpect (fieldTags : list (string * TagValue)) (expected : KeyValue) : Prop :=
  SpanTag (tagsMapResult fieldTags) = []
  /\ ProcessTag (SpanProcess (tagsMapResult fieldTags)) = []
  /\ SpanTags (tagsMapResult fieldTags) = app testingTags [expected]
  /\ ProcessTags (SpanProcess (tagsMapResult fieldTags)) = app testingTags [expected].

End Tags.
Import Tags.

(* ------------------------------------------------------------------ *)
(** ** Errors, query parameters, queries and aggregations *)

Module Query.

(** The errors of the reader. *)
Inductive Error :=
| ErrServiceNameNotSet
| ErrStartAndEndTimeNotSet
| ErrStartTimeMinGreaterThanMax
| ErrDurationMinGreaterThanMax
| ErrSearchFailed (what cause : string)
| ErrAggregationMissing (aggregationName : string)
| ErrNonStringKey
| ErrMalformedDocument (raw : string)
| ErrJoined (errs : list Error)
| ErrNonTerminating.

(** [dbmodel.TraceQueryParameters]; [Tags] is the filter map in iteration
    order. *)
Record TraceQueryParameters := {
  ServiceName : string;
  OperationName : string;
  Tags : list (string * string);
  StartTimeMin : Z;
  StartTimeMax : Z;
  DurationMin : Z;
  DurationMax : Z;
  NumTraces : Z
}.

(** Modelled from the spec: [validateQuery], checked in this order: empty
    service name, a zero start-time bound, [StartTimeMin > StartTimeMax],
    [DurationMin > DurationMax]. *)
Definition validateQuery (p : TraceQueryParameters) : option Error :=
  if String.eqb (ServiceName p) "" then Some ErrServiceNameNotSet
  else if IsZero (StartTimeMin p) || IsZero (StartTimeMax p) then Some ErrStartAndEndTimeNotSet
  else if StartTimeMax p <? StartTimeMin p then Some ErrStartTimeMinGreaterThanMax
  else if DurationMax p <? DurationMin p then Some ErrDurationMinGreaterThanMax
  else None.

(** [model.DurationAsMicroseconds] and [model.TimeAsEpochMicroseconds]:
    [uint64(d / time.Microsecond)], [uint64(t.UnixNano() / 1000)]. *)
Definition uint64 (x : Z) : Z := x mod 2 ^ 64.
Definition DurationAsMicroseconds (d : Z) : Z := uint64 (Z.quot d Microsecond).
Definition TimeAsEpochMicroseconds (t : Z) : Z := uint64 (Z.quot t 1000).

(** Search-engine queries, as far as the reader builds them. *)
Inductive Query :=
| RangeQuery (field : string) (gte lte : Z)
| MatchQuery (field : string) (value : string)
| TermQuery (field : string) (value : string)
| TagQuery (key : string) (value : string)
| BoolMust (must : list Query).

Definition traceIDField := "traceID".
Definition durationField := "duration".
Definition startTimeMillisField := "startTimeMillis".
Definition serviceNameField := "process.serviceName".
Definition operationNameField := "operationName".

(** Modelled from the spec: the clause builders. *)
Definition buildDurationQuery (durationMin durationMax : Z) : Query :=
  RangeQuery durationField (DurationAsMicroseconds durationMin) (DurationAsMicroseconds durationMax).

Definition buildStartTimeQuery (startTimeMin startTimeMax : Z) : Query :=
  RangeQuery startTimeMillisField (TimeAsEpochMicroseconds startTimeMin / 1000)
    (TimeAsEpochMicroseconds startTimeMax / 1000).

Definition buildServiceNameQuery (serviceName : string) : Query := MatchQuery serviceNameField serviceName.

Definition buildOperationNameQuery (operationName : string) : Query := MatchQuery operationNameField operationName.

(** The clause of one tag filter [k = v]; its inner shape (term or regexp
    matches over the tag fields) does not matter to the properties below
    and is kept as one leaf. *)
Definition buildTagQuery (k v : string) : Query := TagQuery k v.

(** Modelled from the spec: [buildFindTraceIDsQuery], a "must" conjunction
    of the duration range (only when [DurationMin] is set), the start-time
    range, the service match, the operation match (only when set) and one
    clause per tag filter. *)
Definition buildFindTraceIDsQuery (p : TraceQueryParameters) : Query :=
  BoolMust (app (if DurationMin p =? 0 then [] else [buildDurationQuery (DurationMin p) (DurationMax p)])
           (app [buildStartTimeQuery (StartTimeMin p) (StartTimeMax p); buildServiceNameQuery (ServiceName p)]
           (app (if String.eqb (OperationName p) "" then [] else [buildOperationNameQuery (OperationName p)])
                (map (fun '(k, v) => buildTagQuery k v) (Tags p))))).

(** A terms aggregation: field, bucket count, and for the trace ids the
    descending order on the max start time of each bucket. *)
Record TermsAggregation := {
  aggField : string;
  aggSize : Z;
  aggOrderByMaxStartTimeDesc : bool
}.

Definition traceIDAggregation := "traceIDs".
Definition servicesAggregation := "distinct_services".
Definition operationsAggregation := "distinct_operations".
Definition serviceNameIndexField := "serviceName".
Definition operationNameIndexField := "operationName".

(** Modelled from the spec: [buildTraceIDAggregation(numOfTraces)]. *)
Definition buildTraceIDAggregation (numOfTraces : Z) : TermsAggregation :=
  {| aggField := traceIDField; aggSize := numOfTraces; aggOrderByMaxStartTimeDesc := true |}.

(** The service and operation aggregations, sized by [MaxDocCount] (the
    size [mockSearchService] of the tests requires). *)
Definition getServicesAggregation (maxDocCount : Z) : TermsAggregation :=
  {| aggField := serviceNameIndexField; aggSize := maxDocCount; aggOrderByMaxStartTimeDesc := false |}.

Definition getOperationsAggregation (maxDocCount : Z) : TermsAggregation :=
  {| aggField := operationNameIndexField; aggSize := maxDocCount; aggOrderByMaxStartTimeDesc := false |}.

End Query.
Import Query.

(* ------------------------------------------------------------------ *)
(** ** The reader: searches, multi-searches and their responses *)

Module Reader.

(** A search hit: a document that decodes to a span, or a malformed one. *)
Inductive Hit := HitDoc (s : Span) | HitMalformed (raw : string).

(** An aggregation bucket key: a string, or a value of another JSON type. *)
Inductive BucketKey := KeyString (s : string) | KeyOther (repr : string).

(** A search response: the returned hits, the reported total hit count, and
    the aggregations by name ([None] when the raw aggregation does not
    parse). *)
Record SearchResult := {
  hits : list Hit;
  totalHits : Z;
  aggregations : list (string * option (list BucketKey))
}.

(** An aggregation search (services, operations, trace ids). *)
Record SearchService := {
  ssIndices : list string;
  ssSize : Z;
  ssIgnoreUnavailable : bool;
  ssQuery : option Query;
  ssAggName : string;
  ssAgg : TermsAggregation
}.

(** One search of a multi-search, built by [sourceFn]: the spans of one
    trace id after a start-time cursor (microseconds), at most [tsSize] of
    them, with total-hit tracking. *)
Record TraceSearch := {
  tsTraceID : string;
  tsSearchAfter : Z;
  tsSize : Z;
  tsTrackTotalHits : bool
}.

(** A request sent to the search engine. *)
Inductive Request :=
| RSearch (s : SearchService)
| RMultiSearch (indices : list string) (searches : list TraceSearch).

(** The search-engine client: each call fails with a message or answers. *)
Record Client := {
  doSearch : SearchService -> string + SearchResult;
  doMultiSearch : list string -> list TraceSearch -> string + list SearchResult
}.

(** The reader's computations: given the client, the requests issued in
    order and the outcome. *)
Definition M (A : Type) : Type := Client -> list Request * (Error + A).

Definition ret {A : Type} (a : A) : M A := fun _ => ([], inr a).

Definition raise {A : Type} (e : Error) : M A := fun _ => ([], inl e).

Definition bind {A B : Type} (m : M A) (f : A -> M B) : M B :=
  fun c =>
    match m c with
    | (l, inl e) => (l, inl e)
    | (l, inr a) => let (l', r) := f a c in (app l l', r)
    end.

Notation "x <- m ;; k" := (bind m (fun x => k)) (at level 61, m at next level, right associativity).

(** A search, its failure wrapped as [SearchFailed]. *)
Definition searchFor (what : string) (s : SearchService) : M SearchResult :=
  fun c => ([RSearch s], match doSearch c s with inl msg => inl (ErrSearchFailed what msg) | inr res => inr res end).

Definition multiSearch (indices : list string) (searches : list TraceSearch) : M (list SearchResult) :=
  fun c => ([RMultiSearch indices searches],
            match doMultiSearch c indices searches with
            | inl msg => inl (ErrSearchFailed "multi search" msg)
            | inr rs => inr rs
            end).

(** The outcome of an index resolution; [None] is a resolution loop that
    does not stop (not reached with the reader's negative steps). *)
Definition resolved (o : option (list string)) : M (list string) :=
  match o with Some l => ret l | None => raise ErrNonTerminating end.

(** Rollover steps: daily for the service index, hourly for the span index. *)
Definition serviceRolloverStep : Z := - (24 * Hour).
Definition spanRolloverStep : Z := - Hour.

(** Modelled from the spec: the aggregation of a response by name. *)
Definition findAggregation (name : string) (res : SearchResult) : option (list BucketKey) :=
  match find (fun '(n, _) => String.eqb n name) (aggregations res) with
  | Some (_, Some b) => Some b
  | _ => None
  end.

Definition getAggregation (name : string) (res : SearchResult) : M (list BucketKey) :=
  match findAggregation name res with
  | Some b => ret b
  | None => raise (ErrAggregationMissing name)
  end.

(** Modelled from the spec: [bucketToStringArray]. *)
Fixpoint bucketKeys (bs : list BucketKey) : option (list string) :=
  match bs with
  | [] => Some []
  | KeyString s :: rest => option_map (cons s) (bucketKeys rest)
  | KeyOther _ :: _ => None
  end.

Definition bucketToStringArray (bs : list BucketKey) : M (list string) :=
  match bucketKeys bs with Some l => ret l | None => raise ErrNonStringKey end.

(** Modelled from the spec: [GetServices], over the service indices of
    [now - maxSpanAge, now]. *)
Definition GetServices (r : SpanReader) (now : Z) : M (list string) :=
  indices <- resolved (readerTimeRangeIndices r (serviceIndexPrefix r) (serviceDateLayout r)
                         (now - maxSpanAge r) now serviceRolloverStep) ;;
  res <- searchFor "services"
           {| ssIndices := indices; ssSize := 0; ssIgnoreUnavailable := true; ssQuery := None;
              ssAggName := servicesAggregation; ssAgg := getServicesAggregation (maxDocCount r) |} ;;
  buckets <- getAggregation servicesAggregation res ;;
  bucketToStringArray buckets.

(** Modelled from the spec: [GetOperations] of a service. *)
Definition GetOperations (r : SpanReader) (now : Z) (service : string) : M (list string) :=
  indices <- resolved (readerTimeRangeIndices r (serviceIndexPrefix r) (serviceDateLayout r)
                         (now - maxSpanAge r) now serviceRolloverStep) ;;
  res <- searchFor "operations"
           {| ssIndices := indices; ssSize := 0; ssIgnoreUnavailable := true;
              ssQuery := Some (TermQuery serviceNameIndexField service);
              ssAggName := operationsAggregation; ssAgg := getOperationsAggregation (maxDocCount r) |} ;;
  buckets <- getAggregation operationsAggregation res ;;
  bucketToStringArray buckets.

(** Modelled from the spec: [findTraceIDs], the trace ids of a query from
    the trace-id aggregation over the span indices of the query window. *)
Definition findTraceIDs (r : SpanReader) (p : TraceQueryParameters) : M (list string) :=
  indices <- resolved (readerTimeRangeIndices r (spanIndexPrefix r) (spanDateLayout r)
                         (StartTimeMin p) (StartTimeMax p) spanRolloverStep) ;;
  res <- searchFor "services"
           {| ssIndices := indices; ssSize := 0; ssIgnoreUnavailable := true;
              ssQuery := Some (buildFindTraceIDsQuery p);
              ssAggName := traceIDAggregation; ssAgg := buildTraceIDAggregation (NumTraces p) |} ;;
  buckets <- getAggregation traceIDAggregation res ;;
  bucketToStringArray buckets.

End Reader.
Import Reader.

(* ------------------------------------------------------------------ *)
(** ** Reading traces: [multiRead], [GetTraces], [FindTraces] *)

Module MultiRead.

(** [dbmodel.Trace] *)
Record Trace := { Spans : list Span }.

(** Modelled from the spec: decoding one hit. *)
Definition decodeHit (h : Hit) : Error + Span :=
  match h with
  | HitDoc s => inr s
  | HitMalformed raw => inl (ErrMalformedDocument raw)
  end.

(** Modelled from the spec: [collectSpans].  A malformed document fails on
    its own; the decoded spans (tags merged) are kept in hit order, and the
    decode errors are collected. *)
Fixpoint collectSpans (dotReplacement : string) (hs : list Hit) : list Span * list Error :=
  match hs with
  | [] => ([], [])
  | h :: rest =>
      let '(spans, errs) := collectSpans dotReplacement rest in
      match decodeHit h with
      | inr s => (mergeAllNestedAndElevatedTagsOfSpan dotReplacement s :: spans, errs)
      | inl e => (spans, e :: errs)
      end
  end.

(** The accumulated decode errors as one error, if any. *)
Definition joinErrors (errs : list Error) : option Error :=
  match errs with [] => None | _ => Some (ErrJoined errs) end.

(** The traces found so far, keyed by trace id in discovery order. *)
Fixpoint addSpans (traces : list (string * list Span)) (traceID : string) (spans : list Span)
    : list (string * list Span) :=
  match traces with
  | [] => [(traceID, spans)]
  | (t, ss) :: rest =>
      if String.eqb t traceID then (t, app ss spans) :: rest
      else (t, ss) :: addSpans rest traceID spans
  end.

(** The state of a wave: traces, decode errors, and the follow-ups to
    issue (trace id and start-time cursor). *)
Record Wave := {
  wTraces : list (string * list Span);
  wErrors : list Error;
  wFollowUps : list (string * Z)
}.

(** Modelled from the spec: processing one response of a wave.  An empty
    hit set is skipped; the decoded spans go to the trace of the last
    decoded span's id; when fewer hits came back than the reported total
    (and [followUps] holds), a follow-up is scheduled at the start time of
    the last decoded span. *)
Definition processResponse (dotReplacement : string) (followUps : bool) (w : Wave) (res : SearchResult)
    : Wave :=
  match hits res with
  | [] => w
  | hs =>
      let '(spans, errs) := collectSpans dotReplacement hs in
      match rev spans with
      | [] => {| wTraces := wTraces w; wErrors := app (wErrors w) errs; wFollowUps := wFollowUps w |}
      | lastSpan :: _ =>
          {| wTraces := addSpans (wTraces w) (TraceID lastSpan) spans;
             wErrors := app (wErrors w) errs;
             wFollowUps :=
               if followUps && (Z.of_nat (List.length hs) <? totalHits res)
               then app (wFollowUps w) [(TraceID lastSpan, StartTime lastSpan)]
               else wFollowUps w |}
      end
  end.

Definition processWave (dotReplacement : string) (followUps : bool) (w : Wave) (rs : list SearchResult)
    : Wave :=
  fold_left (processResponse dotReplacement followUps) rs w.

(** [sourceFn]: the search of one trace id after a cursor. *)
Definition traceSearch (r : SpanReader) (traceID : string) (after : Z) : TraceSearch :=
  {| tsTraceID := traceID; tsSearchAfter := after; tsSize := maxDocCount r; tsTrackTotalHits := true |}.

Definition toTraces (traces : list (string * list Span)) : list Trace :=
  map (fun '(_, ss) => {| Spans := ss |}) traces.

Definition emptyWave : Wave := {| wTraces := []; wErrors := []; wFollowUps := [] |}.

(** Modelled from the spec: [multiRead].  The first wave searches every
    trace id from one hour before [startTime]; at most one follow-up wave
    is issued, for the truncated responses of the first. *)
Definition multiRead (r : SpanReader) (traceIDs : list string) (startTime endTime : Z)
    : M (list Trace * option Error) :=
  match traceIDs with
  | [] => ret ([], None)
  | _ =>
      indices <- resolved (readerTimeRangeIndices r (spanIndexPrefix r) (spanDateLayout r)
                             startTime endTime spanRolloverStep) ;;
      rs1 <- multiSearch indices
               (map (fun id => traceSearch r id (TimeAsEpochMicroseconds (startTime - Hour))) traceIDs) ;;
      let w1 := processWave (dotReplacement r) true emptyWave rs1 in
      match wFollowUps w1 with
      | [] => ret (toTraces (wTraces w1), joinErrors (wErrors w1))
      | fus =>
          rs2 <- multiSearch indices (map (fun '(id, t) => traceSearch r id t) fus) ;;
          let w2 := processWave (dotReplacement r) false
                      {| wTraces := wTraces w1; wErrors := wErrors w1; wFollowUps := [] |} rs2 in
          ret (toTraces (wTraces w2), joinErrors (wErrors w2))
      end
  end.

(** Modelled from the spec: [GetTraces], over [now - maxSpanAge, now]. *)
Definition GetTraces (r : SpanReader) (now : Z) (traceIDs : list string) : M (list Trace * option Error) :=
  multiRead r traceIDs (now - maxSpanAge r) now.

(** Modelled from the spec: [FindTraces]: validation, trace-id discovery,
    then hydration. *)
Definition FindTraces (r : SpanReader) (p : TraceQueryParameters) : M (list Trace * option Error) :=
  match validateQuery p with
  | Some e => raise e
  | None =>
      traceIDs <- findTraceIDs r p ;;
      multiRead r traceIDs (StartTimeMin p) (StartTimeMax p)
  end.

End MultiRead.
Import MultiRead.

(* ------------------------------------------------------------------ *)
(** ** Fixtures of the reader's tests *)

Module Fixtures.

Definition testReader : SpanReader := NewSpanReader defaultParams.

Definition testSpan (traceID : string) (startTime : Z) : Span :=
  {| TraceID := traceID; SpanID := "0"; Tags.OperationName := ""; StartTime := startTime; Duration := 0;
     SpanTags := []; SpanTag := [];
     SpanProcess := {| ProcessServiceName := ""; ProcessTags := []; ProcessTag := [] |} |}.

Definition followUpDate : Z := Date 2019 10 10 5 0 0 0.

(** [TestSpanReader_multiRead_followUp_query]: the first multi-search (two
    searches) answers one response with one of two hits; the second (one
    search) answers one response with the span of the other trace. *)
Definition followUpClient : Client :=
  {| doSearch := fun _ => inl "unused";
     doMultiSearch := fun _ ss =>
       match ss with
       | [_; _] => inr [ {| hits := [HitDoc (testSpan "id1" (TimeAsEpochMicroseconds followUpDate))];
                            totalHits := 2; aggregations := [] |} ]
       | _ => inr [ {| hits := [HitDoc (testSpan "id2" (TimeAsEpochMicroseconds followUpDate))];
                       totalHits := 1; aggregations := [] |} ]
       end |}.

(** A client whose multi-search answers every search with the given
    response. *)
Definition constClient (res : SearchResult) : Client :=
  {| doSearch := fun _ => inr res; doMultiSearch := fun _ ss => inr (map (fun _ => res) ss) |}.

(** [TestSpanReader_GetTraceInvalidSpanError]: one malformed hit. *)
Definition invalidSpanResult : SearchResult :=
  {| hits := [HitMalformed "{bad json}"]; totalHits := 1; aggregations := [] |}.

(** Reader settings of the index tests: daily layouts, the given remote
    clusters, aliases and alias suffix. *)
Definition indexParams (useAliases : bool) (suffix : string) (clusters : list string) : SpanReaderParams :=
  {| MaxDocCount := 10000; MaxSpanAge := 0; SpanIndexDateLayout := "2006-01-02";
     ServiceIndexDateLayout := "2006-01-02"; IndexPrefix := ""; TagDotReplacement := "@";
     ReadAliasSuffix := suffix; UseReadWriteAliases := useAliases; RemoteReadClusters := clusters |}.

End Fixtures.
Import Fixtures.

(* ------------------------------------------------------------------ *)
(** ** Observations on the waves of [multiRead] *)

Module WaveFacts.

(** The spans of a trace id among the traces found so far. *)
Fixpoint lookupTrace (traces : list (string * list Span)) (traceID : string) : option (list Span) :=
  match traces with
  | [] => None
  | (t, ss) :: rest => if String.eqb t traceID then Some ss else lookupTrace rest traceID
  end.

(** What [addSpans] does to the spans of one trace id. *)
Definition appendSpans (o : option (list Span)) (spans : list Span) : option (list Span) :=
  match spans with
  | [] => o
  | _ => Some (match o with Some ss => app ss spans | None => spans end)
  end.

(** The decoded spans of a response. *)
Definition decodedSpans (dotReplacement : string) (res : SearchResult) : list Span :=
  fst (collectSpans dotReplacement (hits res)).

(** The follow-ups a response schedules. *)
Definition followUpsOf (dotReplacement : string) (followUps : bool) (res : SearchResult) : list (string * Z) :=
  match hits res with
  | [] => []
  | hs =>
      if followUps && (Z.of_nat (List.length hs) <? totalHits res) then
        match rev (fst (collectSpans dotReplacement hs)) with
        | [] => []
        | lastSpan :: _ => [(TraceID lastSpan, StartTime lastSpan)]
        end
      else []
  end.

End WaveFacts.
Import WaveFacts.

(** More fixtures: a client backed by a document store, and stores. *)
Module StoreFixtures.

(** A client whose multi-search answers each search from [store], and
    whose aggregation search answers [aggResult]. *)
Definition storeClient (aggResult : SearchResult) (store : TraceSearch -> SearchResult) : Client :=
  {| doSearch := fun _ => inr aggResult; doMultiSearch := fun _ ss => inr (map store ss) |}.

Definition noAggregation : SearchResult := {| hits := []; totalHits := 0; aggregations := [] |}.

(** A store holding two spans of "id1", of which a first search returns
    one, and one span of "id2". *)
Definition pagedStore (q : TraceSearch) : SearchResult :=
  let t := TimeAsEpochMicroseconds followUpDate in
  if String.eqb (tsTraceID q) "id1" then
    if tsSearchAfter q <? t then
      {| hits := [HitDoc (testSpan "id1" t)]; totalHits := 2; aggregations := [] |}
    else {| hits := [HitDoc (testSpan "id1" (t + 1))]; totalHits := 1; aggregations := [] |}
  else if String.eqb (tsTraceID q) "id2" then
    {| hits := [HitDoc (testSpan "id2" t)]; totalHits := 1; aggregations := [] |}
  else noAggregation.

(** A store answering, for every trace id, one good span and one malformed
    document. *)
Definition mixedStore (q : TraceSearch) : SearchResult :=
  {| hits := [HitDoc (testSpan (tsTraceID q) 5); HitMalformed "{bad json"]; totalHits := 2; aggregations := [] |}.

(** A store whose first search of "id1" returns one good span of two,
    and whose follow-up search returns a malformed document and the other
    span; "id2" has one good span. *)
Definition followUpBadStore (q : TraceSearch) : SearchResult :=
  let t := TimeAsEpochMicroseconds followUpDate in
  if String.eqb (tsTraceID q) "id1" then
    if tsSearchAfter q <? t then
      {| hits := [HitDoc (testSpan "id1" t)]; totalHits := 2; aggregations := [] |}
    else {| hits := [HitMalformed "{bad json"; HitDoc (testSpan "id1" (t + 1))]; totalHits := 2;
            aggregations := [] |}
  else if String.eqb (tsTraceID q) "id2" then
    {| hits := [HitDoc (testSpan "id2" t)]; totalHits := 1; aggregations := [] |}
  else noAggregation.

(** An aggregation result naming the trace id "id1". *)
Definition traceIDsResult : SearchResult :=
  {| hits := []; totalHits := 0; aggregations := [(traceIDAggregation, Some [KeyString "id1"])] |}.

End StoreFixtures.
Import StoreFixtures.

(* ------------------------------------------------------------------ *)
(** ** Span warnings ([internal/jptrace/warning.go]) *)

Module Warnings.

(** The non-slice kinds of a [pcommon.Value] read by the warnings code:
    empty, string, bool and int64 values (double, map and bytes values
    are not modelled). *)
Inductive Scalar :=
| SEmpty
| SStr (s : string)
| SBool (b : bool)
| SInt (i : Z).

(** A [pcommon.Value]: a scalar, or a [pcommon.Slice] of values. *)
Inductive Value :=
| VScalar (s : Scalar)
| VSlice (xs : list Value).

(** [Value.Str]: the string of a string value, [""] for any other kind. *)
Definition Str (v : Value) : string :=
  match v with VScalar (SStr s) => s | _ => "" end.

(** [strconv.FormatBool] and [strconv.FormatInt(i, 10)]. *)
Definition FormatBool (b : bool) : string := if b then "true" else "false".

Definition FormatInt (i : Z) : string :=
  if i <? 0 then "-" ++ GoStrings.showNat (- i) else GoStrings.showNat i.

(** [Value.AsString] on the non-slice kinds. *)
Definition AsString (s : Scalar) : string :=
  match s with
  | SEmpty => ""
  | SStr s => s
  | SBool b => FormatBool b
  | SInt i => FormatInt i
  end.

(** A [pcommon.Map] of span attributes: its key/value entries in order. *)
Definition Map := list (string * Value).

(** [Map.Get]: the value of the first entry with the key. *)
Fixpoint Get (k : string) (m : Map) : option Value :=
  match m with
  | [] => None
  | (k', v) :: m' => if String.eqb k' k then Some v else Get k m'
  end.

(** A write through the [Value] handle returned by [Get]: it replaces the
    value of the first entry with the key. *)
Fixpoint setFirst (k : string) (v : Value) (m : Map) : Map :=
  match m with
  | [] => []
  | (k', v') :: m' =>
      if String.eqb k' k then (k', v) :: m' else (k', v') :: setFirst k v m'
  end.

(** [Map.PutEmptySlice]: overwrite the first entry with the key with an
    empty slice, or append a new entry holding one. *)
Definition PutEmptySlice (k : string) (m : Map) : Map :=
  match Get k m with
  | Some _ => setFirst k (VSlice []) m
  | None => app m [(k, VSlice [])]
  end.

(** [for _, warning := range warnings { w.AppendEmpty().SetStr(warning) }]
    on the elements of a slice. *)
Fixpoint appendWarnings (w : list Value) (warnings : list string) : list Value :=
  match warnings with
  | [] => w
  | warning :: rest => appendWarnings (app w [VScalar (SStr warning)]) rest
  end.

Section Warnings.

(** [jptrace.WarningsAttribute], the attribute key of the warnings. *)
Variable WarningsAttribute : string.

(** [AddWarnings(span, warnings...)] on the attributes of the span; [None]
    is a panic.  When the attribute holds a non-slice value, [Slice()]
    returns the invalid zero [pcommon.Slice], on which [AppendEmpty]
    panics: so the loop panics at its first warning. *)
Definition AddWarnings (attrs : Map) (warnings : list string) : option Map :=
  match Get WarningsAttribute attrs with
  | Some (VSlice w) =>
      Some (setFirst WarningsAttribute (VSlice (appendWarnings w warnings)) attrs)
  | Some (VScalar _) =>
      match warnings with [] => Some attrs | _ :: _ => None end
  | None =>
      let attrs' := PutEmptySlice WarningsAttribute attrs in
      Some (setFirst WarningsAttribute (VSlice (appendWarnings [] warnings)) attrs')
  end.

(** [for i := 0; i < ws.Len(); i++ { warnings = append(warnings, ws.At(i).Str()) }] *)
Fixpoint strings (ws : list Value) (warnings : list string) : list string :=
  match ws with
  | [] => warnings
  | x :: ws' => strings ws' (app warnings [Str x])
  end.

(** [GetWarnings(span)] on the attributes of the span.  Go's [nil] slice
    is [None], a non-nil slice (possibly empty) is [Some]. *)
Definition GetWarnings (attrs : Map) : option (list string) :=
  match Get WarningsAttribute attrs with
  | Some (VSlice ws) => Some (strings ws [])
  | Some (VScalar s) => Some [AsString s]
  | None => None
  end.

End Warnings.

End Warnings.

(* ------------------------------------------------------------------ *)
(** ** Kafka authentication ([internal/storage/kafka/auth/config.go]) *)

Module KafkaAuth.

Definition none := "none".
Definition kerberos := "kerberos".
Definition tls := "tls".
Definition plaintext := "plaintext".

Definition authTypes : list string := [none; kerberos; tls; plaintext].

(** [strings.ToLower] on ASCII strings: each byte in [A-Z] is mapped to its
    lower case, every other byte is kept.  (Go lowers non-ASCII text by
    Unicode rules, which this byte map does not follow; [isASCII] marks
    the inputs on which the two agree.) *)
Definition lowerByte (c : ascii) : ascii :=
  let n := nat_of_ascii c in
  if (65 <=? n)%nat && (n <=? 90)%nat then ascii_of_nat (n + 32) else c.

Fixpoint ToLower (s : string) : string :=
  match s with
  | EmptyString => EmptyString
  | String c s' => String (lowerByte c) (ToLower s')
  end.

Fixpoint isASCII (s : string) : bool :=
  match s with
  | EmptyString => true
  | String c s' => (nat_of_ascii c <? 128)%nat && isASCII s'
  end.

(** [strings.Trim(s, cutset)] for an ASCII [cutset]: strip the leading and
    the trailing bytes that occur in [cutset]. *)
Fixpoint inCutset (c : ascii) (cutset : string) : bool :=
  match cutset with
  | EmptyString => false
  | String d cs => Ascii.eqb c d || inCutset c cs
  end.

Fixpoint trimLeftBytes (s cutset : string) : string :=
  match s with
  | EmptyString => EmptyString
  | String c s' => if inCutset c cutset then trimLeftBytes s' cutset else s
  end.

Definition reverse (s : string) : string :=
  string_of_list_ascii (rev (list_ascii_of_string s)).

Definition trimRightBytes (s cutset : string) : string :=
  reverse (trimLeftBytes (reverse s) cutset).

Definition Trim (s cutset : string) : string :=
  trimRightBytes (trimLeftBytes s cutset) cutset.

(** [configtls.ClientConfig]: the fields of the TLS client configuration
    that the authentication code reads or sets, with its file paths. *)
Record ClientConfig := {
  CAFile : string;
  CertFile : string;
  KeyFile : string;
  IncludeSystemCACertsPool : bool;
  Insecure : bool;
  InsecureSkipVerify : bool;
  ServerName : string
}.

Module Krb.
(** [KerberosConfig] (kerberos.go). *)
Record KerberosConfig := {
  ServiceName : string;
  Realm : string;
  UseKeyTab : bool;
  Username : string;
  Password : string;
  ConfigPath : string;
  KeyTabPath : string;
  DisablePAFXFast : bool
}.
End Krb.

Module Plain.
(** [PlainTextConfig] (plaintext.go). *)
Record PlainTextConfig := {
  Username : string;
  Password : string;
  Mechanism : string
}.
End Plain.

Import Krb Plain.

(** [AuthenticationConfig] *)
Record AuthenticationConfig := {
  Authentication : string;
  Kerberos : KerberosConfig;
  TLS : ClientConfig;
  PlainText : PlainTextConfig
}.

Definition withTLS (c : AuthenticationConfig) (t : ClientConfig) : AuthenticationConfig :=
  {| Authentication := Authentication c; Kerberos := Kerberos c; TLS := t; PlainText := PlainText c |}.

Definition withKerberos (c : AuthenticationConfig) (k : KerberosConfig) : AuthenticationConfig :=
  {| Authentication := Authentication c; Kerberos := k; TLS := TLS c; PlainText := PlainText c |}.

Definition withPlainText (c : AuthenticationConfig) (p : PlainTextConfig) : AuthenticationConfig :=
  {| Authentication := Authentication c; Kerberos := Kerberos c; TLS := TLS c; PlainText := p |}.

Definition withAuthentication (c : AuthenticationConfig) (a : string) : AuthenticationConfig :=
  {| Authentication := a; Kerberos := Kerberos c; TLS := TLS c; PlainText := PlainText c |}.

Definition unknownAuthError (method : string) : string :=
  "Unknown/Unsupported authentication method " ++ method ++ " to kafka cluster".

Section SetConfiguration.

(** The [sarama.Config] being configured, and the three setters of the
    package (tls.go, kerberos.go, plaintext.go), which receive pointers to
    the sub-configuration and to the sarama configuration: each may update
    both, and the TLS and plaintext setters return an error. *)
Variable SaramaConfig : Type.
Variable setTLSConfiguration :
  ClientConfig -> SaramaConfig -> ClientConfig * SaramaConfig * option string.
Variable setKerberosConfiguration :
  KerberosConfig -> SaramaConfig -> KerberosConfig * SaramaConfig.
Variable setPlainTextConfiguration :
  PlainTextConfig -> SaramaConfig -> PlainTextConfig * SaramaConfig * option string.

(** [(config *AuthenticationConfig) SetConfiguration(saramaConfig, logger)]:
    the updated configuration, the updated sarama configuration and the
    returned error ([None] is [nil]). *)
Definition SetConfiguration (config : AuthenticationConfig) (saramaConfig : SaramaConfig)
  : AuthenticationConfig * SaramaConfig * option string :=
  let authentication0 := ToLower (Authentication config) in
  let authentication :=
    if String.eqb (Trim authentication0 " ") "" then none else authentication0 in
  let '(config, saramaConfig, err) :=
    if String.eqb (Authentication config) tls || negb (Insecure (TLS config)) then
      let '(t, sc, err) := setTLSConfiguration (TLS config) saramaConfig in
      (withTLS config t, sc, err)
    else (config, saramaConfig, None) in
  match err with
  | Some e => (config, saramaConfig, Some e)
  | None =>
      if String.eqb authentication none then (config, saramaConfig, None)
      else if String.eqb authentication tls then (config, saramaConfig, None)
      else if String.eqb authentication kerberos then
        let '(k, sc) := setKerberosConfiguration (Kerberos config) saramaConfig in
        (withKerberos config k, sc, None)
      else if String.eqb authentication plaintext then
        let '(p, sc, err) := setPlainTextConfiguration (PlainText config) saramaConfig in
        (withPlainText config p, sc, err)
      else (config, saramaConfig, Some (unknownAuthError (Authentication config)))
  end.

End SetConfiguration.

Arguments SetConfiguration {SaramaConfig}.

Section InitFromViper.

(** The viper instance, read through [v.GetString] and [v.GetBool], and
    [tlscfg.ClientFlagsConfig{Prefix: configPrefix}.InitFromViper(v)],
    which returns the TLS client configuration and an error. *)
Variable GetString : string -> string.
Variable GetBool : string -> bool.
Variable tlsInitFromViper : string -> ClientConfig * option string.

(** The flag-name constants of options.go. *)
Variables suffixAuthentication kerberosPrefix suffixKerberosServiceName
  suffixKerberosRealm suffixKerberosUseKeyTab suffixKerberosUsername
  suffixKerberosPassword suffixKerberosConfig suffixKerberosKeyTab
  suffixKerberosDisablePAFXFAST plainTextPrefix suffixPlainTextUsername
  suffixPlainTextPassword suffixPlainTextMechanism : string.

(** [tlsCfg.Insecure = false; tlsCfg.IncludeSystemCACertsPool = true] *)
Definition secureTLS (t : ClientConfig) : ClientConfig :=
  {| CAFile := CAFile t; CertFile := CertFile t; KeyFile := KeyFile t;
     IncludeSystemCACertsPool := true; Insecure := false;
     InsecureSkipVerify := InsecureSkipVerify t; ServerName := ServerName t |}.

(** [(config *AuthenticationConfig) InitFromViper(configPrefix, v)]: the
    updated configuration and the returned error. *)
Definition InitFromViper (config : AuthenticationConfig) (configPrefix : string)
  : AuthenticationConfig * option string :=
  let authentication := GetString (configPrefix ++ suffixAuthentication) in
  let kerberosCfg := {|
    Krb.ServiceName := GetString (configPrefix ++ kerberosPrefix ++ suffixKerberosServiceName);
    Krb.Realm := GetString (configPrefix ++ kerberosPrefix ++ suffixKerberosRealm);
    Krb.UseKeyTab := GetBool (configPrefix ++ kerberosPrefix ++ suffixKerberosUseKeyTab);
    Krb.Username := GetString (configPrefix ++ kerberosPrefix ++ suffixKerberosUsername);
    Krb.Password := GetString (configPrefix ++ kerberosPrefix ++ suffixKerberosPassword);
    Krb.ConfigPath := GetString (configPrefix ++ kerberosPrefix ++ suffixKerberosConfig);
    Krb.KeyTabPath := GetString (configPrefix ++ kerberosPrefix ++ suffixKerberosKeyTab);
    Krb.DisablePAFXFast := GetBool (configPrefix ++ kerberosPrefix ++ suffixKerberosDisablePAFXFAST) |} in
  let config := withKerberos (withAuthentication config authentication) kerberosCfg in
  match tlsInitFromViper configPrefix with
  | (_, Some err) => (config, Some ("failed to process Kafka TLS options: " ++ err))
  | (tlsCfg, None) =>
      let tlsCfg :=
        if String.eqb (Authentication config) tls then secureTLS tlsCfg
        else if GetBool (configPrefix ++ ".tls.enabled") then secureTLS tlsCfg
        else tlsCfg in
      let config := withTLS config tlsCfg in
      let plainTextCfg := {|
        Plain.Username := GetString (configPrefix ++ plainTextPrefix ++ suffixPlainTextUsername);
        Plain.Password := GetString (configPrefix ++ plainTextPrefix ++ suffixPlainTextPassword);
        Plain.Mechanism := GetString (configPrefix ++ plainTextPrefix ++ suffixPlainTextMechanism) |} in
      (withPlainText config plainTextCfg, None)
  end.

End InitFromViper.

End KafkaAuth.

(* ------------------------------------------------------------------ *)
(** ** Sample spans and Kafka configurations *)

Module AuthFixtures.

Import Warnings KafkaAuth KafkaAuth.Krb KafkaAuth.Plain.

Definition warningsKey := "@jaeger@warnings".

(** A span with one warning, and one whose warnings attribute is an int. *)
Definition spanAttrs : Warnings.Map :=
  [("http.method", VScalar (SStr "GET"));
   (warningsKey, VSlice [VScalar (SStr "clock skew adjusted")])].

Definition malformedAttrs : Warnings.Map := [(warningsKey, VScalar (SInt 42))].

(** A sarama configuration recorded as the setters applied to it, most
    recent first; the TLS setter fails on a missing CA file and the
    plaintext setter on a mechanism other than PLAIN. *)
Definition Sarama := list string.

Definition setTLSLog (t : ClientConfig) (sc : Sarama) : ClientConfig * Sarama * option string :=
  (t, "tls" :: sc,
   if String.eqb (CAFile t) "missing.pem" then Some "failed to load CA missing.pem" else None).

Definition setKerberosLog (k : KerberosConfig) (sc : Sarama) : KerberosConfig * Sarama :=
  (k, "kerberos" :: sc).

Definition setPlainTextLog (p : PlainTextConfig) (sc : Sarama) : PlainTextConfig * Sarama * option string :=
  (p, "plaintext" :: sc,
   if String.eqb (Mechanism p) "PLAIN" then None else Some "invalid mechanism").

Definition tlsClient (insecure : bool) (ca : string) : ClientConfig :=
  {| CAFile := ca; CertFile := ""; KeyFile := ""; IncludeSystemCACertsPool := false;
     Insecure := insecure; InsecureSkipVerify := false; ServerName := "" |}.

Definition kerberosCfg : KerberosConfig :=
  {| Krb.ServiceName := "kafka"; Realm := "EXAMPLE.COM"; UseKeyTab := false;
     Krb.Username := "jaeger"; Krb.Password := "secret"; ConfigPath := "/etc/krb5.conf";
     KeyTabPath := "/etc/security/kafka.keytab"; DisablePAFXFast := false |}.

Definition plainCfg : PlainTextConfig :=
  {| Plain.Username := "admin"; Plain.Password := "admin-secret"; Mechanism := "PLAIN" |}.

Definition authConfig (a : string) (t : ClientConfig) : AuthenticationConfig :=
  {| Authentication := a; Kerberos := kerberosCfg; TLS := t; PlainText := plainCfg |}.

(** A viper instance holding the authentication method and the TLS switch
    of the [kafka.consumer] flags, and a TLS flag reader with a fixed
    result. *)
Definition viperStrings (auth : string) (key : string) : string :=
  if String.eqb key "kafka.consumer.authentication" then auth else "".

Definition viperBools (tlsEnabled : bool) (key : string) : bool :=
  if String.eqb key "kafka.consumer.tls.enabled" then tlsEnabled else false.

Definition tlsFlags (result : ClientConfig * option string) (prefix : string) : ClientConfig * option string :=
  result.

Definition consumerInit (auth : string) (tlsEnabled : bool) (tlsResult : ClientConfig * option string)
    (config : AuthenticationConfig) : AuthenticationConfig * option string :=
  InitFromViper (viperStrings auth) (viperBools tlsEnabled) (tlsFlags tlsResult)
    ".authentication" ".kerberos" ".service-name" ".realm" ".use-keytab" ".username"
    ".password" ".config-file" ".keytab-file" ".disable-fast-negotiation" ".plaintext"
    ".username" ".password" ".mechanism" config "kafka.consumer".

End AuthFixtures.

(* ================================================================== *)
(** * Properties *)

(** ** Checks against the expectations of the reader's tests *)

Example format_test_date :
  Format (Date 1995 4 21 4 21 19 95) "2006-01-02" = "1995-04-21".
Proof. vm_compute. reflexivity. Qed.

Example format_test_hour :
  Format (Date 2019 10 10 5 0 0 0) "2006-01-02-15" = "2019-10-10-05".
Proof. vm_compute. reflexivity. Qed.

Example indices_test_layouts :
  indicesOf {| MaxDocCount := 10000; MaxSpanAge := 0; SpanIndexDateLayout := "2006-01-02-15";
     ServiceIndexDateLayout := "2006-01-02"; IndexPrefix := "foo:"; TagDotReplacement := "@";
     ReadAliasSuffix := ""; UseReadWriteAliases := false; RemoteReadClusters := [] |}
  = Some ["foo:-jaeger-span-2019-10-10-05"; "foo:-jaeger-service-2019-10-10"].
Proof. vm_compute. reflexivity. Qed.

Example indices_test_suffix_ignored :
  indicesOf {| MaxDocCount := 10000; MaxSpanAge := 0; SpanIndexDateLayout := "";
     ServiceIndexDateLayout := ""; IndexPrefix := ""; TagDotReplacement := "@";
     ReadAliasSuffix := "archive"; UseReadWriteAliases := false; RemoteReadClusters := [] |}
  = Some ["jaeger-span-"; "jaeger-service-"].
Proof. vm_compute. reflexivity. Qed.

Example indices_test_clusters :
  indicesOf {| MaxDocCount := 10000; MaxSpanAge := 0; SpanIndexDateLayout := "";
     ServiceIndexDateLayout := ""; IndexPrefix := ""; TagDotReplacement := "@";
     ReadAliasSuffix := "archive"; UseReadWriteAliases := true;
     RemoteReadClusters := ["cluster_one"; "cluster_two"] |}
  = Some ["jaeger-span-archive"; "cluster_one:jaeger-span-archive"; "cluster_two:jaeger-span-archive";
          "jaeger-service-archive"; "cluster_one:jaeger-service-archive"; "cluster_two:jaeger-service-archive"].
Proof. vm_compute. reflexivity. Qed.

Example find_indices_test :
  timeRangeIndices spanIndexBaseName "2006-01-02" (today - 13 * Hour) today (-24 * Hour)
  = Some ["jaeger-span-1995-04-21"; "jaeger-span-1995-04-20"]
  /\ timeRangeIndices spanIndexBaseName "2006-01-02" (today - Millisecond) today (-24 * Hour)
  = Some ["jaeger-span-1995-04-21"].
Proof. split; vm_compute; reflexivity. Qed.

(** The cases of [TestTagsMap] (dot replacement ":"). *)
Example tags_map_test_cases :
  tagsMapExpect [("bool:bool", VBool true)] {| Key := "bool.bool"; Type_ := BoolType; Value := VBool true |}
  /\ tagsMapExpect [("int:int", VInt64 2)] {| Key := "int.int"; Type_ := Int64Type; Value := VInt64 2 |}
  /\ tagsMapExpect [("float:float", VFloat64 (S754_finite false 8655355533852672 (-46)))]
       {| Key := "float.float"; Type_ := Float64Type; Value := VFloat64 (S754_finite false 8655355533852672 (-46)) |}
  /\ tagsMapExpect [("json_number:int", VJSONNumber "123")]
       {| Key := "json_number.int"; Type_ := Int64Type; Value := VInt64 123 |}
  /\ tagsMapExpect [("json_number:float", VJSONNumber "123.0")]
       {| Key := "json_number.float"; Type_ := Float64Type; Value := VFloat64 (S754_finite false 8655355533852672 (-46)) |}
  /\ tagsMapExpect [("json_number:err", VJSONNumber "foo")]
       {| Key := "json_number.err"; Type_ := StringType;
          Value := VString ("invalid tag type in foo: strconv.ParseFloat: parsing " ++ dq ++ "foo" ++ dq ++ ": invalid syntax") |}
  /\ tagsMapExpect [("str:str", VString "foo")] {| Key := "str.str"; Type_ := StringType; Value := VString "foo" |}
  /\ tagsMapExpect [("binary:binary", VBinary "foo")] {| Key := "binary.binary"; Type_ := BinaryType; Value := VBinary "foo" |}
  /\ tagsMapExpect [("unsupported", VOther "{}")]
       {| Key := "unsupported"; Type_ := StringType; Value := VString "invalid tag type in {}" |}.
Proof. vm_compute. repeat split. Qed.

Example multi_read_follow_up_test :
  let date := TimeAsEpochMicroseconds followUpDate in
  let before := TimeAsEpochMicroseconds (followUpDate - Hour) in
  multiRead testReader ["id1"; "id2"] followUpDate followUpDate followUpClient
  = ([RMultiSearch ["jaeger-span-"] [traceSearch testReader "id1" before; traceSearch testReader "id2" before];
      RMultiSearch ["jaeger-span-"] [traceSearch testReader "id1" date]],
     inr ([ {| Spans := [testSpan "id1" date] |}; {| Spans := [testSpan "id2" date] |} ], None)).
Proof. vm_compute. reflexivity. Qed.

Example get_trace_invalid_span_test :
  exists l e, GetTraces testReader 0 ["testing-id"] (constClient invalidSpanResult) = (l, inr ([], Some e)).
Proof. vm_compute. eauto. Qed.

Example search_after_test :
  let res := {| hits := repeat (HitDoc (testSpan "testing-id" 1)) (Z.to_nat 10000); totalHits := 10040; aggregations := [] |} in
  match GetTraces testReader 0 ["testing-id"] (constClient res) with
  | (l, inr (traces, None)) => List.length l = 2%nat /\ List.length traces = 1%nat
  | _ => False
  end.
Proof. vm_compute. split; reflexivity. Qed.

Example validation_test :
  let p := {| ServiceName := ""; OperationName := ""; Tags := [("hello", "world")];
              StartTimeMin := zeroTime; StartTimeMax := zeroTime; DurationMin := 0; DurationMax := 0;
              NumTraces := 0 |} in
  let now := Date 2026 1 1 0 0 0 0 in
  validateQuery p = Some ErrServiceNameNotSet
  /\ validateQuery {| ServiceName := "service"; OperationName := ""; Tags := Tags p;
              StartTimeMin := zeroTime; StartTimeMax := zeroTime; DurationMin := 0; DurationMax := 0;
              NumTraces := 0 |} = Some ErrStartAndEndTimeNotSet
  /\ validateQuery {| ServiceName := "service"; OperationName := ""; Tags := Tags p;
              StartTimeMin := now; StartTimeMax := now - Hour; DurationMin := 0; DurationMax := 0;
              NumTraces := 0 |} = Some ErrStartTimeMinGreaterThanMax
  /\ validateQuery {| ServiceName := "service"; OperationName := ""; Tags := Tags p;
              StartTimeMin := now - Hour; StartTimeMax := now; DurationMin := 0; DurationMax := 0;
              NumTraces := 0 |} = None
  /\ validateQuery {| ServiceName := "service"; OperationName := ""; Tags := Tags p;
              StartTimeMin := now - Hour; StartTimeMax := now; DurationMin := Hour; DurationMax := Minute;
              NumTraces := 0 |} = Some ErrDurationMinGreaterThanMax.
Proof. vm_compute. repeat split. Qed.

Example build_find_trace_ids_query_test :
  buildFindTraceIDsQuery {| ServiceName := "s"; OperationName := "o"; Tags := [("hello", "world")];
      StartTimeMin := zeroTime; StartTimeMax := zeroTime + Second; DurationMin := Second;
      DurationMax := 2 * Second; NumTraces := 0 |}
  = BoolMust [buildDurationQuery Second (2 * Second); buildStartTimeQuery zeroTime (zeroTime + Second);
              buildServiceNameQuery "s"; buildOperationNameQuery "o"; buildTagQuery "hello" "world"]
  /\ buildDurationQuery Second (2 * Second) = RangeQuery "duration" 1000000 2000000.
Proof. split; reflexivity. Qed.

(** ** Lemmas on the index resolution loop *)

Lemma timeRangeLoop_S (fuel : nat) (indexName indexDateLayout firstIndex : string)
    (startTime endTime reduceDuration : Z) (indices : list string) :
  timeRangeLoop (S fuel) indexName indexDateLayout firstIndex startTime endTime reduceDuration indices
  = let currentIndex := indexWithDate indexName indexDateLayout endTime in
    if negb (String.eqb currentIndex firstIndex) && (startTime <? endTime) then
      timeRangeLoop fuel indexName indexDateLayout firstIndex startTime (endTime + reduceDuration)
        reduceDuration
        match lastName indices with
        | Some l => if String.eqb l currentIndex then indices else app indices [currentIndex]
        | None => app indices [currentIndex]
        end
    else Some (app indices [firstIndex]).
Proof. reflexivity. Qed.

Lemma timeRangeLoop_stop (fuel : nat) (indexName indexDateLayout firstIndex : string)
    (startTime endTime reduceDuration : Z) (indices : list string) :
  String.eqb (indexWithDate indexName indexDateLayout endTime) firstIndex = true ->
  timeRangeLoop fuel indexName indexDateLayout firstIndex startTime endTime reduceDuration indices
  = Some (app indices [firstIndex]).
Proof. intros H. destruct fuel; simpl; rewrite H; reflexivity. Qed.

Lemma string_eqb_false (a b : string) : a <> b -> String.eqb a b = false.
Proof. apply String.eqb_neq. Qed.

Lemma withClusters_two (c1 c2 : string) (l : list string) :
  withClusters [c1; c2] l = flat_map (fun i => [i; c1 ++ ":" ++ i; c2 ++ ":" ++ i]) l
  /\ List.length (withClusters [c1; c2] l) = (3 * List.length l)%nat.
Proof.
  split; [reflexivity |].
  induction l as [| i l IH]; [reflexivity |].
  unfold withClusters in *. simpl in *. lia.
Qed.

(* ================================================================== *)
(** * The claims *)

(** ** Index resolution *)

(** C3 (counterexample).  With the two remote clusters of the index test,
    a resolution that names one local index gives three names, not twice
    the one name of the same reader without clusters. *)
Lemma C3_counterexample :
  exists federated local,
    readerTimeRangeIndices (NewSpanReader (indexParams false "" ["cluster_one"; "cluster_two"]))
      spanIndexBaseName "2006-01-02" today today (-24 * Hour) = Some federated
    /\ readerTimeRangeIndices (NewSpanReader (indexParams false "" []))
      spanIndexBaseName "2006-01-02" today today (-24 * Hour) = Some local
    /\ List.length federated <> (2 * List.length local)%nat.
Proof.
  do 2 eexists. split; [vm_compute; reflexivity |]. split; [vm_compute; reflexivity |].
  vm_compute. lia.
Qed.

(** C3 (amended).  With two remote clusters [c1] and [c2], the resolved
    sequence lists every local name followed by [c1:name] and [c2:name],
    in that order; its length is three times the non-federated count. *)
Theorem C3_two_clusters_federation (r : SpanReader) (c1 c2 : string)
    (Hclusters : remoteReadClusters r = [c1; c2])
    (indexName indexDateLayout : string) (startTime endTime reduceDuration : Z) (local : list string)
    (Hlocal : getTimeRangeIndexFn (useReadWriteAliases r) (readAliasSuffix r)
                indexName indexDateLayout startTime endTime reduceDuration = Some local) :
  exists federated,
    readerTimeRangeIndices r indexName indexDateLayout startTime endTime reduceDuration = Some federated
    /\ federated = flat_map (fun i => [i; c1 ++ ":" ++ i; c2 ++ ":" ++ i]) local
    /\ List.length federated = (3 * List.length local)%nat.
Proof.
  exists (withClusters [c1; c2] local).
  destruct (withClusters_two c1 c2 local) as [Hshape Hlen].
  unfold readerTimeRangeIndices, addRemoteReadClusters. rewrite Hlocal, Hclusters.
  split; [reflexivity | split; assumption].
Qed.

Lemma C3_two_clusters_federation_witness :
  let r := NewSpanReader (indexParams false "" ["cluster_one"; "cluster_two"]) in
  remoteReadClusters r = ["cluster_one"; "cluster_two"]
  /\ getTimeRangeIndexFn (useReadWriteAliases r) (readAliasSuffix r)
       spanIndexBaseName "2006-01-02" (today - 48 * Hour) today (-24 * Hour)
     = Some ["jaeger-span-1995-04-21"; "jaeger-span-1995-04-20"; "jaeger-span-1995-04-19"]
  /\ exists federated,
       readerTimeRangeIndices r spanIndexBaseName "2006-01-02" (today - 48 * Hour) today (-24 * Hour)
         = Some federated
       /\ federated = flat_map (fun i => [i; "cluster_one" ++ ":" ++ i; "cluster_two" ++ ":" ++ i])
                        ["jaeger-span-1995-04-21"; "jaeger-span-1995-04-20"; "jaeger-span-1995-04-19"]
       /\ List.length federated = (3 * 3)%nat.
Proof.
  intros r. split; [reflexivity |]. split; [vm_compute; reflexivity |].
  apply (C3_two_clusters_federation r "cluster_one" "cluster_two" eq_refl spanIndexBaseName "2006-01-02"
           (today - 48 * Hour) today (-24 * Hour)
           ["jaeger-span-1995-04-21"; "jaeger-span-1995-04-20"; "jaeger-span-1995-04-19"]).
  vm_compute. reflexivity.
Defined.

(** C8.  Without aliases, with the daily layout and a step of -24h, the
    window [t - 48h, t] resolves to exactly the names of [t], of the day
    before and of two days before, in that order (from the end of the
    window backwards), whenever these three days have distinct names. *)
Theorem C8_daily_window_three_names (indexName : string) (t : Z)
    (H01 : indexWithDate indexName "2006-01-02" t <> indexWithDate indexName "2006-01-02" (t - 24 * Hour))
    (H12 : indexWithDate indexName "2006-01-02" (t - 24 * Hour)
           <> indexWithDate indexName "2006-01-02" (t - 48 * Hour))
    (H02 : indexWithDate indexName "2006-01-02" t <> indexWithDate indexName "2006-01-02" (t - 48 * Hour)) :
  timeRangeIndices indexName "2006-01-02" (t - 48 * Hour) t (-24 * Hour)
  = Some [indexWithDate indexName "2006-01-02" t;
          indexWithDate indexName "2006-01-02" (t - 24 * Hour);
          indexWithDate indexName "2006-01-02" (t - 48 * Hour)].
Proof.
  unfold timeRangeIndices.
  replace (t - (t - 48 * Hour)) with (48 * Hour) by lia.
  change (Z.to_nat (48 * Hour / Z.max 1 (- (-24 * Hour)))) with 2%nat.
  rewrite timeRangeLoop_S. cbv zeta.
  rewrite (string_eqb_false _ _ H02).
  replace (t - 48 * Hour <? t) with true by (symmetry; apply Z.ltb_lt; unfold Hour, Minute, Second; lia).
  cbn [negb andb lastName app rev].
  replace (t + -24 * Hour) with (t - 24 * Hour) by lia.
  rewrite timeRangeLoop_S. cbv zeta.
  rewrite (string_eqb_false _ _ H12).
  replace (t - 48 * Hour <? t - 24 * Hour) with true by (symmetry; apply Z.ltb_lt; unfold Hour, Minute, Second; lia).
  cbn [negb andb lastName app rev].
  rewrite (string_eqb_false _ _ H01).
  replace (t - 24 * Hour + -24 * Hour) with (t - 48 * Hour) by lia.
  rewrite timeRangeLoop_stop by apply String.eqb_refl.
  reflexivity.
Qed.

Lemma C8_daily_window_three_names_witness :
  indexWithDate spanIndexBaseName "2006-01-02" today = "jaeger-span-1995-04-21"
  /\ indexWithDate spanIndexBaseName "2006-01-02" (today - 24 * Hour) = "jaeger-span-1995-04-20"
  /\ indexWithDate spanIndexBaseName "2006-01-02" (today - 48 * Hour) = "jaeger-span-1995-04-19"
  /\ timeRangeIndices spanIndexBaseName "2006-01-02" (today - 48 * Hour) today (-24 * Hour)
     = Some [indexWithDate spanIndexBaseName "2006-01-02" today;
             indexWithDate spanIndexBaseName "2006-01-02" (today - 24 * Hour);
             indexWithDate spanIndexBaseName "2006-01-02" (today - 48 * Hour)].
Proof.
  split; [vm_compute; reflexivity |]. split; [vm_compute; reflexivity |].
  split; [vm_compute; reflexivity |].
  apply C8_daily_window_three_names; vm_compute; discriminate.
Defined.

(** C9.  With read/write aliases and no remote cluster, the resolution of
    any window is the single alias name: the index name followed by
    "read", or by the configured read-alias suffix when there is one. *)
Theorem C9_alias_single_name (r : SpanReader) (Haliases : useReadWriteAliases r = true)
    (Hclusters : remoteReadClusters r = [])
    (indexName indexDateLayout : string) (startTime endTime reduceDuration : Z) :
  readerTimeRangeIndices r indexName indexDateLayout startTime endTime reduceDuration
  = Some [indexName ++ (if String.eqb (readAliasSuffix r) "" then "read" else readAliasSuffix r)].
Proof.
  unfold readerTimeRangeIndices, addRemoteReadClusters, getTimeRangeIndexFn.
  rewrite Haliases, Hclusters. reflexivity.
Qed.

Lemma C9_alias_single_name_witness :
  let r := NewSpanReader (indexParams true "archive" []) in
  let r' := NewSpanReader (indexParams true "" []) in
  useReadWriteAliases r = true /\ remoteReadClusters r = []
  /\ readerTimeRangeIndices r spanIndexBaseName "2006-01-02" (today - 48 * Hour) today (-24 * Hour)
     = Some [spanIndexBaseName ++ "archive"]
  /\ useReadWriteAliases r' = true /\ remoteReadClusters r' = []
  /\ readerTimeRangeIndices r' serviceIndexBaseName "2006-01-02" 0 today (-24 * Hour)
     = Some [serviceIndexBaseName ++ "read"].
Proof.
  intros r r'.
  split; [reflexivity |]. split; [reflexivity |].
  split; [apply (C9_alias_single_name r eq_refl eq_refl) |].
  split; [reflexivity |]. split; [reflexivity |].
  apply (C9_alias_single_name r' eq_refl eq_refl).
Defined.

(** ** Tags *)

Lemma convertTagField_Key (dotReplacement k : string) (v : TagValue) :
  Key (convertTagField dotReplacement k v) = replaceAll k dotReplacement ".".
Proof.
  destruct v; unfold convertTagField; try reflexivity.
  destruct (ParseInt64 n); [reflexivity |]. destruct (ParseFloat64 n); reflexivity.
Qed.

Lemma skipn_length_app {A : Type} (a b : list A) : skipn (List.length a) (app a b) = b.
Proof. induction a; simpl; auto. Qed.

(** C6 (counterexample).  The json.Number "1e400" parses neither as an
    int64 nor as a float64, and its message ends in "value out of range",
    not in "invalid syntax". *)
Lemma C6_counterexample :
  ParseInt64 "1e400" = None
  /\ ParseFloat64 "1e400" = inl ErrRange
  /\ convertTagField ":" "json_number:err" (VJSONNumber "1e400")
     = {| Key := "json_number.err"; Type_ := StringType;
          Value := VString ("invalid tag type in 1e400: strconv.ParseFloat: parsing " ++ dq ++ "1e400" ++ dq
                            ++ ": value out of range") |}.
Proof. vm_compute. split; [reflexivity | split; reflexivity]. Qed.

(** C6 (amended).  For every key: a float64 value (integral or not) is kept
    as a float64 of type Float64; a json.Number that parses as an int64 is
    stored as that int64 with type Int64 (so "123" gives 123); a
    json.Number that parses neither as an int64 nor as a float64 becomes
    the String "invalid tag type in n: " followed by the error of
    strconv.ParseFloat on n, which ends in "invalid syntax" for a malformed
    number such as "foo" and in "value out of range" for an overflowing one
    such as "1e400". *)
Theorem C6_tag_coercion (dotReplacement k : string) :
  (forall f : spec_float,
     convertTagField dotReplacement k (VFloat64 f)
     = {| Key := replaceAll k dotReplacement "."; Type_ := Float64Type; Value := VFloat64 f |})
  /\ (forall (n : string) (i : Z), ParseInt64 n = Some i ->
       convertTagField dotReplacement k (VJSONNumber n)
       = {| Key := replaceAll k dotReplacement "."; Type_ := Int64Type; Value := VInt64 i |})
  /\ (forall (n : string) (e : NumErr), ParseInt64 n = None -> ParseFloat64 n = inl e ->
       convertTagField dotReplacement k (VJSONNumber n)
       = {| Key := replaceAll k dotReplacement "."; Type_ := StringType;
            Value := VString ("invalid tag type in " ++ n ++ ": strconv.ParseFloat: parsing " ++ Quote n
                              ++ ": " ++ numErrText e) |})
  /\ ParseInt64 "123" = Some 123
  /\ ParseInt64 "foo" = None /\ ParseFloat64 "foo" = inl ErrSyntax /\ numErrText ErrSyntax = "invalid syntax"
  /\ ParseInt64 "1e400" = None /\ ParseFloat64 "1e400" = inl ErrRange
  /\ numErrText ErrRange = "value out of range".
Proof.
  split; [reflexivity |].
  split; [intros n i Hi; unfold convertTagField; rewrite Hi; reflexivity |].
  split; [intros n e Hi Hf; unfold convertTagField; rewrite Hi, Hf; reflexivity |].
  vm_compute. repeat split.
Qed.

(** C7.  After [mergeAllNestedAndElevatedTagsOfSpan], the elevated maps of
    the span and of its process are empty; the span's tags are its former
    tags followed by the converted entries of its map, and likewise (from
    its own map) for the process; the keys of the merged tags are the map
    keys with the dot replacement turned back into "."; the other fields
    are unchanged. *)
Theorem C7_merge_tags (dotReplacement : string) (span : Span) :
  let merged := mergeAllNestedAndElevatedTagsOfSpan dotReplacement span in
  SpanTag merged = []
  /\ ProcessTag (SpanProcess merged) = []
  /\ SpanTags merged
     = app (SpanTags span) (map (fun '(k, v) => convertTagField dotReplacement k v) (SpanTag span))
  /\ ProcessTags (SpanProcess merged)
     = app (ProcessTags (SpanProcess span))
           (map (fun '(k, v) => convertTagField dotReplacement k v) (ProcessTag (SpanProcess span)))
  /\ map Key (skipn (List.length (SpanTags span)) (SpanTags merged))
     = map (fun '(k, _) => replaceAll k dotReplacement ".") (SpanTag span)
  /\ map Key (skipn (List.length (ProcessTags (SpanProcess span))) (ProcessTags (SpanProcess merged)))
     = map (fun '(k, _) => replaceAll k dotReplacement ".") (ProcessTag (SpanProcess span))
  /\ TraceID merged = TraceID span /\ SpanID merged = SpanID span
  /\ Tags.OperationName merged = Tags.OperationName span
  /\ StartTime merged = StartTime span /\ Duration merged = Duration span
  /\ ProcessServiceName (SpanProcess merged) = ProcessServiceName (SpanProcess span).
Proof.
  cbv zeta. unfold mergeAllNestedAndElevatedTagsOfSpan, mergeNestedAndElevatedTags. cbn.
  rewrite !skipn_length_app, !map_map.
  repeat split; apply map_ext; intros [k v]; apply convertTagField_Key.
Qed.

(** ** Query validation and the trace-id query *)

(** C4.  [validateQuery] returns [ErrServiceNameNotSet] exactly when the
    service name is empty; otherwise [ErrStartAndEndTimeNotSet] exactly
    when a start-time bound is the zero time; otherwise
    [ErrStartTimeMinGreaterThanMax] exactly when [StartTimeMin >
    StartTimeMax]; otherwise [ErrDurationMinGreaterThanMax] exactly when
    [DurationMin > DurationMax]; otherwise nothing.  When it fails,
    [FindTraces] returns that error without issuing any request. *)
Theorem C4_validate_query (p : TraceQueryParameters) :
  (validateQuery p = Some ErrServiceNameNotSet <-> ServiceName p = "")
  /\ (validateQuery p = Some ErrStartAndEndTimeNotSet
      <-> ServiceName p <> "" /\ (StartTimeMin p = zeroTime \/ StartTimeMax p = zeroTime))
  /\ (validateQuery p = Some ErrStartTimeMinGreaterThanMax
      <-> ServiceName p <> "" /\ StartTimeMin p <> zeroTime /\ StartTimeMax p <> zeroTime
          /\ StartTimeMin p > StartTimeMax p)
  /\ (validateQuery p = Some ErrDurationMinGreaterThanMax
      <-> ServiceName p <> "" /\ StartTimeMin p <> zeroTime /\ StartTimeMax p <> zeroTime
          /\ StartTimeMin p <= StartTimeMax p /\ DurationMin p > DurationMax p)
  /\ (validateQuery p = None
      <-> ServiceName p <> "" /\ StartTimeMin p <> zeroTime /\ StartTimeMax p <> zeroTime
          /\ StartTimeMin p <= StartTimeMax p /\ DurationMin p <= DurationMax p)
  /\ (forall (r : SpanReader) (c : Client) (e : Error),
        validateQuery p = Some e -> FindTraces r p c = ([], inl e)).
Proof.
  assert (Hft : forall (r : SpanReader) (c : Client) (e : Error),
             validateQuery p = Some e -> FindTraces r p c = ([], inl e)).
  { intros r c e He. unfold FindTraces. rewrite He. reflexivity. }
  enough (H : (validateQuery p = Some ErrServiceNameNotSet <-> ServiceName p = "")
  /\ (validateQuery p = Some ErrStartAndEndTimeNotSet
      <-> ServiceName p <> "" /\ (StartTimeMin p = zeroTime \/ StartTimeMax p = zeroTime))
  /\ (validateQuery p = Some ErrStartTimeMinGreaterThanMax
      <-> ServiceName p <> "" /\ StartTimeMin p <> zeroTime /\ StartTimeMax p <> zeroTime
          /\ StartTimeMin p > StartTimeMax p)
  /\ (validateQuery p = Some ErrDurationMinGreaterThanMax
      <-> ServiceName p <> "" /\ StartTimeMin p <> zeroTime /\ StartTimeMax p <> zeroTime
          /\ StartTimeMin p <= StartTimeMax p /\ DurationMin p > DurationMax p)
  /\ (validateQuery p = None
      <-> ServiceName p <> "" /\ StartTimeMin p <> zeroTime /\ StartTimeMax p <> zeroTime
          /\ StartTimeMin p <= StartTimeMax p /\ DurationMin p <= DurationMax p)) by tauto.
  unfold validateQuery, IsZero.
  destruct (String.eqb_spec (ServiceName p) "") as [Hs | Hs];
  [| destruct (Z.eqb_spec (StartTimeMin p) zeroTime) as [Hmin | Hmin];
     destruct (Z.eqb_spec (StartTimeMax p) zeroTime) as [Hmax | Hmax]; simpl;
     try destruct (Z.ltb_spec (StartTimeMax p) (StartTimeMin p));
     try destruct (Z.ltb_spec (DurationMax p) (DurationMin p))];
  repeat split; intros;
  repeat match goal with H : _ /\ _ |- _ => destruct H end;
  try discriminate; try tauto; try lia.
Qed.

(** C1.  For a valid query, [buildFindTraceIDsQuery] is a "must"
    conjunction of: the duration range when [DurationMin] is set, the
    start-time range, the service match, the operation match when the
    operation is set, then one clause per tag filter in the order of the
    filter map; so it has 2 clauses, plus 1 with an operation, plus 1 with
    a duration bound, plus the number of tag filters. *)
Theorem C1_find_trace_ids_query_shape (p : TraceQueryParameters) (Hvalid : validateQuery p = None) :
  exists clauses,
    buildFindTraceIDsQuery p = BoolMust clauses
    /\ clauses = app (if DurationMin p =? 0 then [] else [buildDurationQuery (DurationMin p) (DurationMax p)])
                 (app [buildStartTimeQuery (StartTimeMin p) (StartTimeMax p); buildServiceNameQuery (ServiceName p)]
                 (app (if String.eqb (OperationName p) "" then [] else [buildOperationNameQuery (OperationName p)])
                      (map (fun '(k, v) => buildTagQuery k v) (Tags p))))
    /\ List.length clauses
       = (2 + (if String.eqb (OperationName p) "" then 0 else 1) + (if Z.eqb (DurationMin p) 0 then 0 else 1)
          + List.length (Tags p))%nat.
Proof.
  eexists. split; [reflexivity |]. split; [reflexivity |].
  rewrite !length_app, length_map.
  destruct (DurationMin p =? 0), (String.eqb (OperationName p) ""); simpl; lia.
Qed.

Lemma C1_find_trace_ids_query_shape_witness :
  let p := {| ServiceName := "s"; OperationName := "o"; Tags := [("hello", "world")];
              StartTimeMin := Date 2019 10 10 5 0 0 0; StartTimeMax := Date 2019 10 10 6 0 0 0;
              DurationMin := Second; DurationMax := 2 * Second; NumTraces := 20 |} in
  validateQuery p = None
  /\ exists clauses,
       buildFindTraceIDsQuery p = BoolMust clauses
       /\ clauses = [buildDurationQuery Second (2 * Second);
                     buildStartTimeQuery (StartTimeMin p) (StartTimeMax p);
                     buildServiceNameQuery "s"; buildOperationNameQuery "o"; buildTagQuery "hello" "world"]
       /\ List.length clauses = 5%nat.
Proof.
  intros p. split; [vm_compute; reflexivity |].
  destruct (C1_find_trace_ids_query_shape p ltac:(vm_compute; reflexivity)) as [cl [H1 [H2 H3]]].
  exists cl. split; [exact H1 |]. split; [rewrite H2; reflexivity |]. rewrite H3. reflexivity.
Defined.

(** ** The requests of the aggregation searches *)

Lemma aggregationSearch_requests (o : option (list string)) (what name : string)
    (f : list string -> SearchService) (c : Client) (q : Request) :
  In q (fst ((indices <- resolved o ;;
              res <- searchFor what (f indices) ;;
              buckets <- getAggregation name res ;;
              bucketToStringArray buckets) c)) ->
  exists indices, q = RSearch (f indices).
Proof.
  unfold bind, resolved, ret, raise, searchFor, getAggregation, bucketToStringArray.
  destruct o as [indices |]; simpl; [| tauto].
  destruct (doSearch c (f indices)) as [msg | res]; simpl.
  - intros [H | []]. eauto.
  - destruct (findAggregation name res); simpl; [destruct (bucketKeys l) |]; simpl;
      intros [H | []]; eauto.
Qed.

(** C10.  Every request issued by [GetServices], [GetOperations] and
    [findTraceIDs] is an aggregation search of size 0, whose terms
    aggregation has [MaxDocCount] buckets for the services and the
    operations, and the query's trace count for the trace ids. *)
Theorem C10_aggregation_searches (r : SpanReader) (now : Z) (service : string) (p : TraceQueryParameters)
    (c : Client) :
  (forall q, In q (fst (GetServices r now c)) ->
     exists s, q = RSearch s /\ ssSize s = 0 /\ ssAggName s = servicesAggregation
               /\ aggSize (ssAgg s) = maxDocCount r)
  /\ (forall q, In q (fst (GetOperations r now service c)) ->
     exists s, q = RSearch s /\ ssSize s = 0 /\ ssAggName s = operationsAggregation
               /\ aggSize (ssAgg s) = maxDocCount r)
  /\ (forall q, In q (fst (findTraceIDs r p c)) ->
     exists s, q = RSearch s /\ ssSize s = 0 /\ ssAggName s = traceIDAggregation
               /\ aggField (ssAgg s) = traceIDField /\ aggSize (ssAgg s) = NumTraces p).
Proof.
  split; [| split]; intros q Hq.
  - apply aggregationSearch_requests in Hq as [indices ->]. eexists; repeat split.
  - apply aggregationSearch_requests in Hq as [indices ->]. eexists; repeat split.
  - apply aggregationSearch_requests in Hq as [indices ->]. eexists; repeat split.
Qed.

(** ** Reading traces *)

Lemma timeRangeLoop_total (fuel : nat) (indexName indexDateLayout firstIndex : string)
    (startTime endTime reduceDuration : Z) (indices : list string) :
  reduceDuration < 0 ->
  endTime - startTime <= Z.of_nat fuel * (- reduceDuration) ->
  timeRangeLoop fuel indexName indexDateLayout firstIndex startTime endTime reduceDuration indices <> None.
Proof.
  revert endTime indices.
  induction fuel as [| fuel IH]; intros endTime indices Hneg Hfuel.
  - simpl. replace (startTime <? endTime) with false by (symmetry; apply Z.ltb_ge; lia).
    rewrite andb_false_r. discriminate.
  - rewrite timeRangeLoop_S. cbv zeta.
    destruct (negb _ && _); [| discriminate].
    apply IH; [assumption |]. rewrite Nat2Z.inj_succ in Hfuel. nia.
Qed.

Lemma timeRangeIndices_total (indexName indexDateLayout : string) (startTime endTime reduceDuration : Z) :
  reduceDuration < 0 ->
  timeRangeIndices indexName indexDateLayout startTime endTime reduceDuration <> None.
Proof.
  intros Hneg. unfold timeRangeIndices. apply timeRangeLoop_total; [assumption |].
  rewrite Z.max_r by lia.
  destruct (Z.le_gt_cases (endTime - startTime) 0) as [Hle | Hgt].
  - nia.
  - assert (Hq : 0 <= (endTime - startTime) / - reduceDuration) by (apply Z.div_pos; lia).
    rewrite Nat2Z.inj_succ, Z2Nat.id by assumption.
    pose proof (Z.div_mod (endTime - startTime) (- reduceDuration) ltac:(lia)).
    pose proof (Z.mod_pos_bound (endTime - startTime) (- reduceDuration) ltac:(lia)).
    nia.
Qed.

Lemma readerTimeRangeIndices_total (r : SpanReader) (indexName indexDateLayout : string)
    (startTime endTime reduceDuration : Z) :
  reduceDuration < 0 ->
  exists indices, readerTimeRangeIndices r indexName indexDateLayout startTime endTime reduceDuration = Some indices.
Proof.
  intros Hneg. unfold readerTimeRangeIndices, addRemoteReadClusters, getTimeRangeIndexFn.
  destruct (useReadWriteAliases r).
  - destruct (remoteReadClusters r); eauto.
  - destruct (timeRangeIndices indexName indexDateLayout startTime endTime reduceDuration) eqn:E.
    + destruct (remoteReadClusters r); eauto.
    + exfalso. exact (timeRangeIndices_total _ _ _ _ _ Hneg E).
Qed.

Lemma lookupTrace_In (traces : list (string * list Span)) (traceID : string) (ss : list Span) :
  lookupTrace traces traceID = Some ss -> In (traceID, ss) traces.
Proof.
  induction traces as [| [t ss'] rest IH]; simpl; [discriminate |].
  destruct (String.eqb_spec t traceID) as [-> | _]; [intros [= ->]; left; reflexivity |].
  intros H. right. apply IH, H.
Qed.

Lemma lookupTrace_addSpans (traces : list (string * list Span)) (t traceID : string) (spans : list Span) :
  lookupTrace (addSpans traces t spans) traceID
  = if String.eqb t traceID then Some (match lookupTrace traces traceID with Some ss => app ss spans | None => spans end)
    else lookupTrace traces traceID.
Proof.
  induction traces as [| [t' ss'] rest IH]; simpl.
  - destruct (String.eqb t traceID); reflexivity.
  - destruct (String.eqb_spec t' t) as [-> | Hne]; simpl.
    + destruct (String.eqb t traceID); reflexivity.
    + rewrite IH. destruct (String.eqb_spec t' traceID) as [-> | Hne'];
      destruct (String.eqb_spec t traceID) as [-> | Hne'']; congruence.
Qed.

Lemma appendSpans_Some (ss spans : list Span) : appendSpans (Some ss) spans = Some (app ss spans).
Proof. destruct spans; simpl; [rewrite app_nil_r |]; reflexivity. Qed.

Lemma collectSpans_TraceID (dotReplacement : string) (hs : list Hit) (traceID : string) :
  (forall s, In (HitDoc s) hs -> TraceID s = traceID) ->
  forall x, In x (fst (collectSpans dotReplacement hs)) -> TraceID x = traceID.
Proof.
  induction hs as [| h hs IH]; simpl; [tauto |].
  intros Hdocs x Hx.
  destruct (collectSpans dotReplacement hs) as [spans errs] eqn:E. simpl in *.
  destruct h as [s | raw]; simpl in Hx.
  - destruct Hx as [<- | Hx]; [change (TraceID s = traceID); apply Hdocs; left; reflexivity |].
    apply IH; [intros s' Hs'; apply Hdocs; right; exact Hs' | exact Hx].
  - apply IH; [intros s' Hs'; apply Hdocs; right; exact Hs' | exact Hx].
Qed.

Lemma processResponse_lookup (dotReplacement : string) (followUps : bool) (w : Wave) (res : SearchResult)
    (key traceID : string) :
  (forall x, In x (decodedSpans dotReplacement res) -> TraceID x = key) ->
  lookupTrace (wTraces (processResponse dotReplacement followUps w res)) traceID
  = if String.eqb key traceID then appendSpans (lookupTrace (wTraces w) traceID) (decodedSpans dotReplacement res)
    else lookupTrace (wTraces w) traceID.
Proof.
  unfold processResponse, decodedSpans.
  destruct (hits res) as [| h hs]; cbn beta iota; intros Hkey.
  - destruct (String.eqb key traceID); reflexivity.
  - destruct (collectSpans dotReplacement (h :: hs)) as [spans errs]. cbn beta iota in Hkey |- *.
    destruct (rev spans) as [| lastSpan pre] eqn:Er; simpl.
    + assert (spans = []) as -> by (rewrite <- (rev_involutive spans), Er; reflexivity).
      destruct (String.eqb key traceID); reflexivity.
    + assert (Hin : In lastSpan spans) by (apply in_rev; rewrite Er; left; reflexivity).
      rewrite lookupTrace_addSpans, (Hkey lastSpan Hin).
      destruct spans as [| s0 spans']; [simpl in Er; discriminate |].
      destruct (String.eqb key traceID); reflexivity.
Qed.

Lemma processResponse_followUps (dotReplacement : string) (followUps : bool) (w : Wave) (res : SearchResult) :
  wFollowUps (processResponse dotReplacement followUps w res)
  = app (wFollowUps w) (followUpsOf dotReplacement followUps res).
Proof.
  unfold processResponse, followUpsOf.
  destruct (hits res) as [| h hs]; cbn beta iota; [rewrite app_nil_r; reflexivity |].
  destruct (collectSpans dotReplacement (h :: hs)) as [spans errs]. cbn beta iota.
  cbn [fst wFollowUps].
  destruct (rev spans) as [| lastSpan pre]; destruct (followUps && _); cbn [wFollowUps];
    rewrite ?app_nil_r; reflexivity.
Qed.

Lemma processWave_followUps (dotReplacement : string) (followUps : bool) (rs : list SearchResult) (w : Wave) :
  wFollowUps (processWave dotReplacement followUps w rs)
  = app (wFollowUps w) (flat_map (followUpsOf dotReplacement followUps) rs).
Proof.
  unfold processWave. revert w.
  induction rs as [| res rs IH]; intros w; simpl; [rewrite app_nil_r; reflexivity |].
  rewrite IH, processResponse_followUps, app_assoc. reflexivity.
Qed.

Lemma processWave_lookup {A : Type} (key : A -> string) (resp : A -> SearchResult)
    (dotReplacement : string) (followUps : bool) (l : list A) (w : Wave) (traceID : string) :
  (forall a x, In a l -> In x (decodedSpans dotReplacement (resp a)) -> TraceID x = key a) ->
  lookupTrace (wTraces (processWave dotReplacement followUps w (map resp l))) traceID
  = fold_left (fun o a => appendSpans o (decodedSpans dotReplacement (resp a)))
      (filter (fun a => String.eqb (key a) traceID) l) (lookupTrace (wTraces w) traceID).
Proof.
  unfold processWave. revert w.
  induction l as [| a l IH]; intros w Hkeys; simpl; [reflexivity |].
  rewrite IH by (intros a' x Ha' Hx; apply (Hkeys a' x); [right; exact Ha' | exact Hx]).
  rewrite (processResponse_lookup _ _ _ _ (key a)) by (intros x Hx; apply (Hkeys a x); [left; reflexivity | exact Hx]).
  destruct (String.eqb (key a) traceID); reflexivity.
Qed.

Lemma filter_eqb_notin (ids : list string) (traceID : string) :
  ~ In traceID ids -> filter (fun i => String.eqb i traceID) ids = [].
Proof.
  induction ids as [| i ids IH]; simpl; [reflexivity |]. intros Hnotin.
  destruct (String.eqb_spec i traceID) as [-> | _]; [exfalso; apply Hnotin; left; reflexivity |].
  apply IH. intros H. apply Hnotin. right. exact H.
Qed.

Lemma filter_eqb_NoDup (ids : list string) (traceID : string) :
  NoDup ids -> In traceID ids -> filter (fun i => String.eqb i traceID) ids = [traceID].
Proof.
  induction ids as [| i ids IH]; simpl; [tauto |].
  intros Hnd Hin. inversion Hnd as [| ? ? Hnotin Hnd']; subst.
  destruct (String.eqb_spec i traceID) as [-> | Hne].
  - rewrite filter_eqb_notin by exact Hnotin. reflexivity.
  - destruct Hin as [-> | Hin]; [contradiction |]. apply IH; assumption.
Qed.

Lemma decodedSpans_TraceID (dotReplacement : string) (store : TraceSearch -> SearchResult)
    (Hstore : forall q s, In (HitDoc s) (hits (store q)) -> TraceID s = tsTraceID q) (q : TraceSearch) :
  forall x, In x (decodedSpans dotReplacement (store q)) -> TraceID x = tsTraceID q.
Proof. apply collectSpans_TraceID. apply Hstore. Qed.

Lemma followUpsOf_key (dotReplacement : string) (followUps : bool) (res : SearchResult) (key : string) :
  (forall x, In x (decodedSpans dotReplacement res) -> TraceID x = key) ->
  forall e, In e (followUpsOf dotReplacement followUps res) -> fst e = key.
Proof.
  unfold followUpsOf, decodedSpans. intros Hkey e.
  destruct (hits res) as [| h hs]; cbn beta iota; [simpl; tauto |].
  destruct (followUps && _); [| simpl; tauto].
  destruct (rev (fst (collectSpans dotReplacement (h :: hs)))) as [| lastSpan pre] eqn:Er; [simpl; tauto |].
  intros [<- | []]. apply Hkey. apply in_rev. rewrite Er. left. reflexivity.
Qed.

Lemma filter_flat_map_key {A : Type} (key : A -> string) (g : A -> list (string * Z)) (l : list A) (traceID : string) :
  (forall a e, In a l -> In e (g a) -> fst e = key a) ->
  filter (fun e => String.eqb (fst e) traceID) (flat_map g l)
  = flat_map g (filter (fun a => String.eqb (key a) traceID) l).
Proof.
  induction l as [| a l IH]; simpl; [reflexivity |]. intros Hkey.
  rewrite filter_app, IH by (intros a' e Ha' He; apply (Hkey a' e); [right; exact Ha' | exact He]).
  assert (Hg : forall e, In e (g a) -> fst e = key a) by (intros e He; apply (Hkey a e); [left; reflexivity | exact He]).
  destruct (String.eqb_spec (key a) traceID) as [Heq | Hne]; simpl.
  - f_equal. clear IH Hkey. induction (g a) as [| e es IHg]; simpl; [reflexivity |].
    rewrite (Hg e (or_introl eq_refl)), Heq, String.eqb_refl. f_equal.
    apply IHg. intros e' He'. apply Hg. right. exact He'.
  - replace (filter (fun e => String.eqb (fst e) traceID) (g a)) with (@nil (string * Z)); [reflexivity |].
    clear IH Hkey. induction (g a) as [| e es IHg]; simpl; [reflexivity |].
    rewrite (Hg e (or_introl eq_refl)).
    destruct (String.eqb_spec (key a) traceID) as [| _]; [contradiction |].
    apply IHg. intros e' He'. apply Hg. right. exact He'.
Qed.

Lemma filter_map_traceSearch (r : SpanReader) (fus : list (string * Z)) (traceID : string) :
  filter (fun q => String.eqb (tsTraceID q) traceID) (map (fun '(i, t) => traceSearch r i t) fus)
  = map (fun '(i, t) => traceSearch r i t) (filter (fun e => String.eqb (fst e) traceID) fus).
Proof.
  induction fus as [| [i t] fus IH]; simpl; [reflexivity |].
  destruct (String.eqb i traceID); simpl; rewrite IH; reflexivity.
Qed.

Lemma flat_map_map_comp {A B C : Type} (f : A -> B) (g : B -> list C) (l : list A) :
  flat_map g (map f l) = flat_map (fun a => g (f a)) l.
Proof. induction l; simpl; [reflexivity | rewrite IHl; reflexivity]. Qed.



Lemma processResponse_errors (dotReplacement : string) (followUps : bool) (w : Wave) (res : SearchResult) :
  wErrors (processResponse dotReplacement followUps w res)
  = app (wErrors w) (snd (collectSpans dotReplacement (hits res))).
Proof.
  unfold processResponse.
  destruct (hits res) as [| h hs]; cbn beta iota; [simpl; rewrite app_nil_r; reflexivity |].
  destruct (collectSpans dotReplacement (h :: hs)) as [spans errs]. cbn [snd].
  destruct (rev spans); reflexivity.
Qed.

Lemma processWave_errors (dotReplacement : string) (followUps : bool) (rs : list SearchResult) (w : Wave) :
  wErrors (processWave dotReplacement followUps w rs)
  = app (wErrors w) (flat_map (fun res => snd (collectSpans dotReplacement (hits res))) rs).
Proof.
  unfold processWave. revert w.
  induction rs as [| res rs IH]; intros w; simpl; [rewrite app_nil_r; reflexivity |].
  rewrite IH, processResponse_errors, app_assoc. reflexivity.
Qed.

Lemma collectSpans_malformed (dotReplacement : string) (hs : list Hit) (raw : string) :
  In (HitMalformed raw) hs -> In (ErrMalformedDocument raw) (snd (collectSpans dotReplacement hs)).
Proof.
  induction hs as [| h hs IH]; simpl; [tauto |]. intros Hin.
  destruct (collectSpans dotReplacement hs) as [spans errs]. simpl in IH.
  destruct Hin as [-> | Hin]; simpl; [left; reflexivity |].
  destruct (decodeHit h); simpl; [right |]; apply IH; exact Hin.
Qed.

Lemma joinErrors_Some (errs : list Error) (e : Error) : In e errs -> exists e', joinErrors errs = Some e'.
Proof. destruct errs; simpl; [tauto | eauto]. Qed.

Lemma addSpans_keeps (traces : list (string * list Span)) (t : string) (spans : list Span) (k : string) (ss : list Span) (x : Span) :
  In (k, ss) traces -> In x ss -> exists k' ss', In (k', ss') (addSpans traces t spans) /\ In x ss'.
Proof.
  induction traces as [| [t' ss'] rest IH]; simpl; [tauto |].
  intros [Heq | Hin] Hx.
  - inversion Heq; subst. destruct (String.eqb k t).
    + exists k, (app ss spans). split; [left; reflexivity | apply in_or_app; left; exact Hx].
    + exists k, ss. split; [left; reflexivity | exact Hx].
  - destruct (String.eqb t' t).
    + exists k, ss. split; [right; exact Hin | exact Hx].
    + destruct (IH Hin Hx) as (k' & ss'' & H1 & H2). exists k', ss''. split; [right; exact H1 | exact H2].
Qed.

Lemma addSpans_adds (traces : list (string * list Span)) (t : string) (spans : list Span) (x : Span) :
  In x spans -> exists k' ss', In (k', ss') (addSpans traces t spans) /\ In x ss'.
Proof.
  induction traces as [| [t' ss'] rest IH]; simpl; intros Hx.
  - exists t, spans. split; [left; reflexivity | exact Hx].
  - destruct (String.eqb t' t).
    + exists t', (app ss' spans). split; [left; reflexivity | apply in_or_app; right; exact Hx].
    + destruct (IH Hx) as (k' & ss'' & H1 & H2). exists k', ss''. split; [right; exact H1 | exact H2].
Qed.

Lemma processResponse_keeps (dotReplacement : string) (followUps : bool) (w : Wave) (res : SearchResult) (x : Span) :
  (exists k ss, In (k, ss) (wTraces w) /\ In x ss) ->
  exists k ss, In (k, ss) (wTraces (processResponse dotReplacement followUps w res)) /\ In x ss.
Proof.
  intros (k & ss & Hk & Hx). unfold processResponse.
  destruct (hits res) as [| h hs]; cbn beta iota; [eauto |].
  destruct (collectSpans dotReplacement (h :: hs)) as [spans errs].
  destruct (rev spans); cbn [wTraces]; [eauto |].
  eapply addSpans_keeps; eassumption.
Qed.

Lemma processResponse_adds (dotReplacement : string) (followUps : bool) (w : Wave) (res : SearchResult) (x : Span) :
  In x (decodedSpans dotReplacement res) ->
  exists k ss, In (k, ss) (wTraces (processResponse dotReplacement followUps w res)) /\ In x ss.
Proof.
  unfold processResponse, decodedSpans.
  destruct (hits res) as [| h hs]; cbn beta iota; [simpl; tauto |].
  destruct (collectSpans dotReplacement (h :: hs)) as [spans errs]. cbn [fst]. intros Hx.
  destruct (rev spans) as [| lastSpan pre] eqn:Er.
  - assert (spans = []) as -> by (rewrite <- (rev_involutive spans), Er; reflexivity). destruct Hx.
  - cbn [wTraces]. apply addSpans_adds. exact Hx.
Qed.

Lemma processWave_keeps (dotReplacement : string) (followUps : bool) (rs : list SearchResult) (w : Wave) (x : Span) :
  (exists k ss, In (k, ss) (wTraces w) /\ In x ss) ->
  exists k ss, In (k, ss) (wTraces (processWave dotReplacement followUps w rs)) /\ In x ss.
Proof.
  unfold processWave. revert w.
  induction rs as [| res rs IH]; intros w Hw; simpl; [exact Hw |].
  apply IH. apply processResponse_keeps. exact Hw.
Qed.

Lemma processWave_adds (dotReplacement : string) (followUps : bool) (rs : list SearchResult) (w : Wave)
    (res : SearchResult) (x : Span) :
  In res rs -> In x (decodedSpans dotReplacement res) ->
  exists k ss, In (k, ss) (wTraces (processWave dotReplacement followUps w rs)) /\ In x ss.
Proof.
  unfold processWave. revert w.
  induction rs as [| res' rs IH]; intros w Hres Hx; simpl; [destruct Hres |].
  destruct Hres as [<- | Hres].
  - apply processWave_keeps. apply processResponse_adds. exact Hx.
  - apply IH; assumption.
Qed.

Lemma toTraces_In (traces : list (string * list Span)) (x : Span) :
  (exists k ss, In (k, ss) traces /\ In x ss) -> exists t, In t (toTraces traces) /\ In x (Spans t).
Proof.
  intros (k & ss & Hk & Hx). exists {| Spans := ss |}. split; [| exact Hx].
  unfold toTraces. apply (in_map (fun '(_, ss) => {| Spans := ss |}) _ _ Hk).
Qed.

Lemma processWave_search_spans (dot : string) (b : bool) (w : Wave) (store : TraceSearch -> SearchResult)
    (ss : list TraceSearch) (q : TraceSearch) (x : Span) :
  In q ss -> In x (decodedSpans dot (store q)) ->
  exists k sp, In (k, sp) (wTraces (processWave dot b w (map store ss))) /\ In x sp.
Proof.
  intros Hq Hx. apply (processWave_adds _ _ _ _ (store q)); [apply in_map; exact Hq | exact Hx].
Qed.

Lemma processWave_search_errors (dot : string) (b : bool) (w : Wave) (store : TraceSearch -> SearchResult)
    (ss : list TraceSearch) (q : TraceSearch) (raw : string) :
  In q ss -> In (HitMalformed raw) (hits (store q)) ->
  In (ErrMalformedDocument raw) (wErrors (processWave dot b w (map store ss))).
Proof.
  intros Hq Hbad. rewrite processWave_errors. apply in_or_app. right.
  apply in_flat_map. exists (store q). split; [apply in_map; exact Hq |].
  apply collectSpans_malformed. exact Hbad.
Qed.

Lemma multiRead_responses (r : SpanReader) (store : TraceSearch -> SearchResult) (c : Client)
    (Hclient : forall indices searches, doMultiSearch c indices searches = inr (map store searches))
    (traceIDs : list string) (startTime endTime : Z) :
  exists log traces err,
    multiRead r traceIDs startTime endTime c = (log, inr (traces, err))
    /\ (traceIDs <> [] -> exists indices rest,
          log = RMultiSearch indices
                  (map (fun i => traceSearch r i (TimeAsEpochMicroseconds (startTime - Hour))) traceIDs) :: rest)
    /\ forall indices searches q, In (RMultiSearch indices searches) log -> In q searches ->
         (forall x, In x (decodedSpans (dotReplacement r) (store q)) -> exists t, In t traces /\ In x (Spans t))
         /\ (forall raw, In (HitMalformed raw) (hits (store q)) -> exists e, err = Some e).
Proof.
  destruct traceIDs as [| i0 rest].
  { exists [], [], None. split; [reflexivity |]. split; [intros H; congruence | intros ? ? ? []]. }
  destruct (readerTimeRangeIndices_total r (spanIndexPrefix r) (spanDateLayout r) startTime endTime
              spanRolloverStep ltac:(unfold spanRolloverStep, Hour, Minute, Second; lia)) as [indices Hidx].
  set (lb := TimeAsEpochMicroseconds (startTime - Hour)).
  set (dot := dotReplacement r).
  set (ss1 := map (fun i => traceSearch r i lb) (i0 :: rest)).
  set (w1 := processWave dot true emptyWave (map store ss1)).
  assert (Hs1 : forall q x, In q ss1 -> In x (decodedSpans dot (store q)) ->
                exists k sp, In (k, sp) (wTraces w1) /\ In x sp)
    by (intros; eapply processWave_search_spans; eassumption).
  assert (He1 : forall q raw, In q ss1 -> In (HitMalformed raw) (hits (store q)) ->
                In (ErrMalformedDocument raw) (wErrors w1))
    by (intros; eapply processWave_search_errors; eassumption).
  unfold multiRead, bind, resolved, ret, multiSearch. rewrite Hidx. cbn beta iota zeta.
  rewrite Hclient. cbn beta iota zeta. fold lb. fold dot. fold ss1. fold w1.
  destruct (wFollowUps w1) as [| f0 fs] eqn:Ef.
  - do 3 eexists. split; [reflexivity |]. cbn [app].
    split; [intros _; exists indices, []; reflexivity |].
    intros ind ss q [Hr | []] Hq. injection Hr as <- <-. split.
    + intros x Hx. apply toTraces_In. exact (Hs1 q x Hq Hx).
    + intros raw Hbad. exact (joinErrors_Some _ _ (He1 q raw Hq Hbad)).
  - rewrite Hclient. cbn beta iota zeta.
    set (ss2 := map (fun '(i, t) => traceSearch r i t) (f0 :: fs)).
    set (w0 := {| wTraces := wTraces w1; wErrors := wErrors w1; wFollowUps := [] |}).
    set (w2 := processWave dot false w0 (map store ss2)).
    do 3 eexists. split; [reflexivity |]. cbn [app].
    split; [intros _; eexists indices, _; reflexivity |].
    intros ind ss q Hr Hq. split.
    + intros x Hx. apply toTraces_In. fold w0. fold w2.
      destruct Hr as [Hr | [Hr | []]]; injection Hr as <- <-.
      * apply processWave_keeps. exact (Hs1 q x Hq Hx).
      * exact (processWave_search_spans _ _ _ _ _ q x Hq Hx).
    + intros raw Hbad. fold w0. fold w2. apply (joinErrors_Some _ (ErrMalformedDocument raw)).
      destruct Hr as [Hr | [Hr | []]]; injection Hr as <- <-.
      * unfold w2. rewrite processWave_errors. apply in_or_app. left. exact (He1 q raw Hq Hbad).
      * exact (processWave_search_errors _ _ _ _ _ q raw Hq Hbad).
Qed.

(** C2.  Let the multi-search answer every search from a store whose
    documents belong to the trace id they are searched by, and let the
    trace ids be distinct.  When the first-wave response of a trace id
    returns fewer hits than its reported total and its last decoded span is
    [lastSpan], the reader issues exactly two multi-searches; the second
    holds exactly one search for that trace id, with the start time of
    [lastSpan] as its new lower bound; and the trace returned for it holds
    the spans of the first wave followed by those of the follow-up. *)
Theorem C2_follow_up (r : SpanReader) (store : TraceSearch -> SearchResult) (c : Client)
    (Hclient : forall indices searches, doMultiSearch c indices searches = inr (map store searches))
    (Hstore : forall q s, In (HitDoc s) (hits (store q)) -> TraceID s = tsTraceID q)
    (traceIDs : list string) (Hnodup : NoDup traceIDs) (traceID : string) (Hin : In traceID traceIDs)
    (startTime endTime : Z) (first : list Span) (lastSpan : Span)
    (Hfirst : decodedSpans (dotReplacement r)
                (store (traceSearch r traceID (TimeAsEpochMicroseconds (startTime - Hour))))
              = app first [lastSpan])
    (Htrunc : Z.of_nat (List.length (hits (store (traceSearch r traceID (TimeAsEpochMicroseconds (startTime - Hour))))))
              < totalHits (store (traceSearch r traceID (TimeAsEpochMicroseconds (startTime - Hour))))) :
  exists indices followUps traces err,
    multiRead r traceIDs startTime endTime c
    = ([RMultiSearch indices (map (fun i => traceSearch r i (TimeAsEpochMicroseconds (startTime - Hour))) traceIDs);
        RMultiSearch indices followUps], inr (traces, err))
    /\ filter (fun q => String.eqb (tsTraceID q) traceID) followUps = [traceSearch r traceID (StartTime lastSpan)]
    /\ In {| Spans := app (app first [lastSpan])
                          (decodedSpans (dotReplacement r) (store (traceSearch r traceID (StartTime lastSpan)))) |}
          traces.
Proof.
  destruct (readerTimeRangeIndices_total r (spanIndexPrefix r) (spanDateLayout r) startTime endTime
              spanRolloverStep ltac:(unfold spanRolloverStep, Hour, Minute, Second; lia)) as [indices Hidx].
  set (lb := TimeAsEpochMicroseconds (startTime - Hour)) in *.
  set (dot := dotReplacement r) in *.
  set (w1 := processWave dot true emptyWave (map store (map (fun i => traceSearch r i lb) traceIDs))).
  assert (Hkeys : forall q x, In x (decodedSpans dot (store q)) -> TraceID x = tsTraceID q)
    by (intros q; apply decodedSpans_TraceID; exact Hstore).
  (* the follow-ups of the first wave for [traceID] *)
  assert (Hfus : filter (fun e => String.eqb (fst e) traceID) (wFollowUps w1) = [(traceID, StartTime lastSpan)]).
  { unfold w1. rewrite processWave_followUps, map_map, flat_map_map_comp. cbn [wFollowUps emptyWave app].
    rewrite (filter_flat_map_key (fun i => i)).
    2: { intros a e _ He. apply (followUpsOf_key dot true _ a) in He; [exact He |].
         intros x Hx. apply (Hkeys _ x Hx). }
    rewrite filter_eqb_NoDup by assumption. cbn [flat_map]. rewrite app_nil_r.
    unfold followUpsOf. unfold decodedSpans in Hfirst.
    destruct (hits (store (traceSearch r traceID lb))) as [| h hs] eqn:Eh.
    - cbn in Hfirst. destruct first; discriminate.
    - cbn beta iota. replace (Z.of_nat (List.length (h :: hs)) <? totalHits (store (traceSearch r traceID lb)))
        with true by (symmetry; apply Z.ltb_lt; exact Htrunc).
      rewrite Hfirst, rev_app_distr. cbn [rev app andb].
      rewrite (Hkeys (traceSearch r traceID lb) lastSpan); [reflexivity |].
      unfold decodedSpans. rewrite Eh, Hfirst. apply in_or_app. right. left. reflexivity. }
  (* the trace of [traceID] after the first wave *)
  assert (Hlook1 : lookupTrace (wTraces w1) traceID = Some (app first [lastSpan])).
  { unfold w1. rewrite map_map.
    rewrite (processWave_lookup (fun i => i) (fun i => store (traceSearch r i lb))).
    2: { intros a x _ Hx. apply (Hkeys _ x Hx). }
    rewrite filter_eqb_NoDup by assumption. cbn. fold lb. fold dot.
    rewrite Hfirst. destruct first; reflexivity. }
  destruct traceIDs as [| i0 rest]; [destruct Hin |].
  unfold multiRead, bind, resolved, ret, multiSearch. rewrite Hidx. cbn beta iota zeta.
  rewrite Hclient. cbn beta iota zeta. fold lb. fold dot. fold w1.
  destruct (wFollowUps w1) as [| f0 fs] eqn:Ef; [discriminate Hfus |].
  rewrite Hclient. cbn beta iota zeta.
  do 4 eexists. split; [reflexivity |]. split.
  - rewrite filter_map_traceSearch, Hfus. reflexivity.
  -     set (w2 := processWave dot false {| wTraces := wTraces w1; wErrors := wErrors w1; wFollowUps := [] |}
                 (map store (map (fun '(i, t) => traceSearch r i t) (f0 :: fs)))).
    assert (Hlook2 : lookupTrace (wTraces w2) traceID
                     = Some (app (app first [lastSpan]) (decodedSpans dot (store (traceSearch r traceID (StartTime lastSpan)))))).
    { unfold w2. rewrite map_map.
      replace (map (fun x => store (let '(i, t) := x in traceSearch r i t)) (f0 :: fs))
        with (map (fun e => store (traceSearch r (fst e) (snd e))) (f0 :: fs))
        by (apply map_ext; intros [i t]; reflexivity).
      rewrite (processWave_lookup fst (fun e => store (traceSearch r (fst e) (snd e)))).
      2: { intros a x _ Hx. apply (Hkeys _ x Hx). }
      rewrite Hfus. cbn [fold_left wTraces fst snd]. rewrite Hlook1. apply appendSpans_Some. }
    apply lookupTrace_In in Hlook2.
    unfold toTraces. apply (in_map (fun '(_, ss) => {| Spans := ss |}) _ _ Hlook2).
Qed.

(** C5.  Let the multi-search answer every search from a store.  Then
    [GetTraces] and (for a valid query whose trace-id search succeeded)
    [FindTraces] return traces and an optional error; their first request
    is the first-wave multi-search of every trace id; and for every search
    of every multi-search they issue, first wave or follow-up wave alike,
    each span decoded from its response is in a returned trace, and a
    malformed document in its response makes the returned error non-nil. *)
Theorem C5_malformed_document (r : SpanReader) (store : TraceSearch -> SearchResult) (c : Client)
    (Hclient : forall indices searches, doMultiSearch c indices searches = inr (map store searches)) :
  (forall (now : Z) (traceIDs : list string),
     exists log traces err,
       GetTraces r now traceIDs c = (log, inr (traces, err))
       /\ (traceIDs <> [] -> exists indices rest,
             log = RMultiSearch indices
                     (map (fun i => traceSearch r i (TimeAsEpochMicroseconds (now - maxSpanAge r - Hour)))
                          traceIDs) :: rest)
       /\ forall indices searches q, In (RMultiSearch indices searches) log -> In q searches ->
            (forall x, In x (decodedSpans (dotReplacement r) (store q)) ->
                       exists t, In t traces /\ In x (Spans t))
            /\ (forall raw, In (HitMalformed raw) (hits (store q)) -> exists e, err = Some e))
  /\ (forall (p : TraceQueryParameters) (log0 : list Request) (traceIDs : list string),
     validateQuery p = None ->
     findTraceIDs r p c = (log0, inr traceIDs) ->
     exists log traces err,
       FindTraces r p c = (app log0 log, inr (traces, err))
       /\ (traceIDs <> [] -> exists indices rest,
             log = RMultiSearch indices
                     (map (fun i => traceSearch r i (TimeAsEpochMicroseconds (StartTimeMin p - Hour)))
                          traceIDs) :: rest)
       /\ forall indices searches q, In (RMultiSearch indices searches) log -> In q searches ->
            (forall x, In x (decodedSpans (dotReplacement r) (store q)) ->
                       exists t, In t traces /\ In x (Spans t))
            /\ (forall raw, In (HitMalformed raw) (hits (store q)) -> exists e, err = Some e)).
Proof.
  split.
  - intros now traceIDs. unfold GetTraces.
    exact (multiRead_responses r store c Hclient traceIDs (now - maxSpanAge r) now).
  - intros p log0 traceIDs Hvalid Hids.
    destruct (multiRead_responses r store c Hclient traceIDs (StartTimeMin p) (StartTimeMax p))
      as (log & traces & err & Hread & Hfirst & Hall).
    exists log, traces, err. split; [| exact (conj Hfirst Hall)].
    unfold FindTraces. rewrite Hvalid. unfold bind. rewrite Hids. rewrite Hread. reflexivity.
Qed.

Lemma C2_follow_up_witness :
  let date := TimeAsEpochMicroseconds followUpDate in
  let lb := TimeAsEpochMicroseconds (followUpDate - Hour) in
  decodedSpans (dotReplacement testReader) (pagedStore (traceSearch testReader "id1" lb))
    = app [] [testSpan "id1" date]
  /\ Z.of_nat (List.length (hits (pagedStore (traceSearch testReader "id1" lb))))
     < totalHits (pagedStore (traceSearch testReader "id1" lb))
  /\ exists indices followUps traces err,
       multiRead testReader ["id1"; "id2"] followUpDate followUpDate (storeClient noAggregation pagedStore)
       = ([RMultiSearch indices (map (fun i => traceSearch testReader i lb) ["id1"; "id2"]);
           RMultiSearch indices followUps], inr (traces, err))
       /\ filter (fun q => String.eqb (tsTraceID q) "id1") followUps = [traceSearch testReader "id1" date]
       /\ In {| Spans := app (app [] [testSpan "id1" date])
                            (decodedSpans (dotReplacement testReader)
                               (pagedStore (traceSearch testReader "id1" date))) |} traces.
Proof.
  intros date lb.
  split; [vm_compute; reflexivity |]. split; [vm_compute; reflexivity |].
  apply (C2_follow_up testReader pagedStore (storeClient noAggregation pagedStore))
    with (traceIDs := ["id1"; "id2"]) (traceID := "id1") (startTime := followUpDate) (endTime := followUpDate)
         (first := []) (lastSpan := testSpan "id1" date).
  - intros indices searches. reflexivity.
  - intros q s Hs. unfold pagedStore in Hs. cbv zeta in Hs.
    destruct (String.eqb_spec (tsTraceID q) "id1") as [Hq | _].
    + destruct (tsSearchAfter q <? TimeAsEpochMicroseconds followUpDate);
        destruct Hs as [Hs | []]; inversion Hs; subst; rewrite Hq; reflexivity.
    + destruct (String.eqb_spec (tsTraceID q) "id2") as [Hq | _]; [| destruct Hs].
      destruct Hs as [Hs | []]; inversion Hs; subst; rewrite Hq; reflexivity.
  - repeat constructor; simpl; intuition discriminate.
  - left. reflexivity.
  - vm_compute. reflexivity.
  - vm_compute. reflexivity.
Defined.

Lemma C5_malformed_document_witness :
  let c := storeClient traceIDsResult followUpBadStore in
  let t := TimeAsEpochMicroseconds followUpDate in
  (forall indices searches, doMultiSearch c indices searches = inr (map followUpBadStore searches))
  /\ (exists log traces e,
        GetTraces testReader followUpDate ["id1"; "id2"] c = (log, inr (traces, Some e))
        /\ forall x, In x (decodedSpans (dotReplacement testReader)
                             (followUpBadStore (traceSearch testReader "id1" t))) ->
             exists tr, In tr traces /\ In x (Spans tr))
  /\ (let p := {| ServiceName := "s"; OperationName := ""; Tags := [];
                  StartTimeMin := followUpDate - Hour; StartTimeMax := followUpDate;
                  DurationMin := 0; DurationMax := 0; NumTraces := 20 |} in
      exists log traces e,
        FindTraces testReader p c = (log, inr (traces, Some e))
        /\ forall x, In x (decodedSpans (dotReplacement testReader)
                             (followUpBadStore (traceSearch testReader "id1" t))) ->
             exists tr, In tr traces /\ In x (Spans tr)).
Proof.
  intros c t.
  assert (Hc : forall indices searches, doMultiSearch c indices searches = inr (map followUpBadStore searches))
    by (intros; reflexivity).
  destruct (C5_malformed_document testReader followUpBadStore c Hc) as [Hget Hfind].
  assert (Hq : forall raw, raw = "{bad json" ->
                In (HitMalformed raw) (hits (followUpBadStore (traceSearch testReader "id1" t))))
    by (intros raw ->; vm_compute; left; reflexivity).
  split; [exact Hc |]. split.
  - destruct (Hget followUpDate ["id1"; "id2"]) as (log & traces & err & Hr & _ & Hall).
    assert (Hin : exists ind, In (RMultiSearch ind [traceSearch testReader "id1" t]) log).
    { replace log with (fst (GetTraces testReader followUpDate ["id1"; "id2"] c)) by (rewrite Hr; reflexivity).
      vm_compute. eexists. right. left. reflexivity. }
    destruct Hin as [ind Hin].
    destruct (Hall ind _ (traceSearch testReader "id1" t) Hin (or_introl eq_refl)) as [Hsp Herr].
    destruct (Herr "{bad json" (Hq _ eq_refl)) as [e ->].
    exists log, traces, e. split; [exact Hr | exact Hsp].
  - intros p.
    destruct (Hfind p (fst (findTraceIDs testReader p c)) ["id1"] ltac:(vm_compute; reflexivity)
                ltac:(vm_compute; reflexivity)) as (log & traces & err & Hr & _ & Hall).
    assert (Hin : exists ind, In (RMultiSearch ind [traceSearch testReader "id1" t]) log).
    { assert (Hl : app (fst (findTraceIDs testReader p c)) log = fst (FindTraces testReader p c))
        by (rewrite Hr; reflexivity).
      vm_compute in Hl. injection Hl as Hl. rewrite Hl.
      eexists. right. left. reflexivity. }
    destruct Hin as [ind Hin].
    destruct (Hall ind _ (traceSearch testReader "id1" t) Hin (or_introl eq_refl)) as [Hsp Herr].
    destruct (Herr "{bad json" (Hq _ eq_refl)) as [e ->].
    exists (app (fst (findTraceIDs testReader p c)) log), traces, e. split; [exact Hr | exact Hsp].
Defined.

(* ================================================================== *)
(** * Span warnings and Kafka authentication *)

(* ------------------------------------------------------------------ *)
(** ** Span warnings *)

Section WarningsFacts.

Import Warnings.

Lemma appendWarnings_app (w : list Value) (ws : list string) :
  appendWarnings w ws = app w (map (fun s => VScalar (SStr s)) ws).
Proof.
  revert w; induction ws as [|x ws IH]; intro w; simpl.
  - now rewrite app_nil_r.
  - rewrite IH, <- app_assoc; reflexivity.
Qed.

Lemma strings_app (ws : list Value) (acc : list string) :
  strings ws acc = app acc (map Str ws).
Proof.
  revert acc; induction ws as [|x ws IH]; intro acc; simpl.
  - now rewrite app_nil_r.
  - rewrite IH, <- app_assoc; reflexivity.
Qed.

Lemma Get_setFirst_same (k : string) (v v0 : Value) (m : Map) :
  Get k m = Some v0 -> Get k (setFirst k v m) = Some v.
Proof.
  induction m as [|[k' v'] m IH]; simpl; [discriminate|].
  destruct (String.eqb k' k) eqn:E; simpl; rewrite ?E; auto.
Qed.

Lemma Get_setFirst_other (k k2 : string) (v : Value) (m : Map) :
  k2 <> k -> Get k2 (setFirst k v m) = Get k2 m.
Proof.
  intro Hne; induction m as [|[k' v'] m IH]; simpl; [reflexivity|].
  destruct (String.eqb k' k) eqn:E; simpl.
  - apply String.eqb_eq in E; subst k'.
    destruct (String.eqb k k2) eqn:E2; [apply String.eqb_eq in E2; congruence|reflexivity].
  - now rewrite IH.
Qed.

Lemma setFirst_setFirst (k : string) (v1 v2 : Value) (m : Map) :
  setFirst k v2 (setFirst k v1 m) = setFirst k v2 m.
Proof.
  induction m as [|[k' v'] m IH]; simpl; [reflexivity|].
  destruct (String.eqb k' k) eqn:E; simpl; rewrite E; [reflexivity|now rewrite IH].
Qed.

Lemma Get_app_None (k : string) (m m2 : Map) :
  Get k m = None -> Get k (app m m2) = Get k m2.
Proof.
  induction m as [|[k' v'] m IH]; simpl; [reflexivity|].
  destruct (String.eqb k' k); [discriminate|exact IH].
Qed.

Lemma setFirst_app_None (k : string) (v : Value) (m m2 : Map) :
  Get k m = None -> setFirst k v (app m m2) = app m (setFirst k v m2).
Proof.
  induction m as [|[k' v'] m IH]; simpl; [reflexivity|].
  destruct (String.eqb k' k); [discriminate|intro H; now rewrite IH].
Qed.

Lemma Get_key (k : string) (v : Value) : Get k [(k, v)] = Some v.
Proof. simpl; now rewrite String.eqb_refl. Qed.

(** [AddWarnings] on a span without the warnings attribute appends a last
    entry holding the warnings. *)
Lemma AddWarnings_absent (WA : string) (attrs : Map) (ws : list string) :
  Get WA attrs = None ->
  AddWarnings WA attrs ws = Some (app attrs [(WA, VSlice (map (fun s => VScalar (SStr s)) ws))]).
Proof.
  intro H; unfold AddWarnings, PutEmptySlice; rewrite H.
  rewrite setFirst_app_None by exact H; simpl; rewrite String.eqb_refl.
  now rewrite appendWarnings_app.
Qed.

(** X1: on a span whose warnings attribute is absent or a slice, [AddWarnings]
    does not panic, and [GetWarnings] then returns the warnings read before
    (none if the attribute was absent) followed by the added ones. *)
Theorem AddWarnings_GetWarnings (WA : string) (attrs : Map) (ws : list string) :
  (Get WA attrs = None \/ exists xs, Get WA attrs = Some (VSlice xs)) ->
  exists attrs', AddWarnings WA attrs ws = Some attrs' /\
    GetWarnings WA attrs' = Some (app (match GetWarnings WA attrs with Some old => old | None => [] end) ws).
Proof.
  intros [H | [xs H]].
  - rewrite AddWarnings_absent by exact H; eexists; split; [reflexivity|].
    unfold GetWarnings; rewrite H, Get_app_None by exact H; rewrite Get_key.
    rewrite strings_app, map_map; simpl; now rewrite map_id.
  - unfold AddWarnings, GetWarnings; rewrite H; eexists; split; [reflexivity|].
    rewrite (Get_setFirst_same _ _ _ _ H), !strings_app, appendWarnings_app, map_app, map_map; simpl.
    now rewrite map_id.
Qed.

(** X2: two successive [AddWarnings] calls act as one call with the
    concatenated warnings. *)
Theorem AddWarnings_compose (WA : string) (attrs attrs1 : Map) (ws1 ws2 : list string) :
  AddWarnings WA attrs ws1 = Some attrs1 ->
  AddWarnings WA attrs1 ws2 = AddWarnings WA attrs (app ws1 ws2).
Proof.
  destruct (Get WA attrs) as [[s|xs]|] eqn:H.
  - unfold AddWarnings; rewrite H; destruct ws1; [|discriminate].
    intro E; injection E as <-; rewrite H; reflexivity.
  - unfold AddWarnings at 1; rewrite H; intro E; injection E as <-.
    unfold AddWarnings; rewrite (Get_setFirst_same _ _ _ _ H), H, setFirst_setFirst.
    rewrite !appendWarnings_app, map_app, app_assoc; reflexivity.
  - rewrite (AddWarnings_absent _ _ _ H); intro E; injection E as <-.
    rewrite (AddWarnings_absent _ _ _ H).
    unfold AddWarnings; rewrite (Get_app_None _ _ _ H), Get_key.
    rewrite (setFirst_app_None _ _ _ _ H); simpl; rewrite String.eqb_refl.
    rewrite appendWarnings_app, map_app; reflexivity.
Qed.

(** X3: [AddWarnings] leaves the value of every other attribute key as it was. *)
Theorem AddWarnings_other_keys (WA k : string) (attrs attrs' : Map) (ws : list string) :
  AddWarnings WA attrs ws = Some attrs' -> k <> WA -> Get k attrs' = Get k attrs.
Proof.
  intros E Hk; destruct (Get WA attrs) as [[s|xs]|] eqn:H.
  - unfold AddWarnings in E; rewrite H in E; destruct ws; [|discriminate]; congruence.
  - unfold AddWarnings in E; rewrite H in E; injection E as <-.
    now apply Get_setFirst_other.
  - rewrite (AddWarnings_absent _ _ _ H) in E; injection E as <-.
    destruct (Get k attrs) eqn:Hg.
    + clear H; induction attrs as [|[k' v'] m IH]; simpl in *; [discriminate|].
      destruct (String.eqb k' k); [exact Hg|exact (IH Hg)].
    + rewrite Get_app_None by exact Hg; simpl.
      destruct (String.eqb WA k) eqn:E2; [apply String.eqb_eq in E2; congruence|reflexivity].
Qed.

(** X5: without a warnings attribute [GetWarnings] returns a nil slice;
    [AddWarnings] with no warnings creates an empty slice attribute, after
    which [GetWarnings] returns an empty, non-nil slice. *)
Theorem Warnings_nil_vs_empty (WA : string) (attrs : Map) :
  Get WA attrs = None ->
  GetWarnings WA attrs = None /\
  exists attrs', AddWarnings WA attrs [] = Some attrs' /\ GetWarnings WA attrs' = Some [].
Proof.
  intro H; split; [unfold GetWarnings; now rewrite H|].
  rewrite AddWarnings_absent by exact H; eexists; split; [reflexivity|].
  unfold GetWarnings; rewrite Get_app_None by exact H; now rewrite Get_key.
Qed.
End WarningsFacts.

(* ------------------------------------------------------------------ *)
(** ** Kafka authentication *)

Section KafkaAuthFacts.

Import KafkaAuth KafkaAuth.Krb KafkaAuth.Plain.

Lemma ToLower_idem (s : string) : ToLower (ToLower s) = ToLower s.
Proof.
  induction s as [|c s IH]; simpl; [reflexivity|rewrite IH; f_equal].
  destruct c as [b0 b1 b2 b3 b4 b5 b6 b7];
  destruct b0, b1, b2, b3, b4, b5, b6, b7; reflexivity.
Qed.

Lemma ToLower_tls (s : string) : String.eqb s tls = true -> ToLower s = tls.
Proof. intro H; apply String.eqb_eq in H; subst; reflexivity. Qed.

Lemma trimLeft_blank_ToLower (s : string) :
  trimLeftBytes s " " = "" -> ToLower s = s.
Proof.
  induction s as [|c s IH]; simpl; [reflexivity|].
  destruct (Ascii.eqb c " ") eqn:E; simpl; [|discriminate].
  apply Ascii.eqb_eq in E; subst c; intro H; now rewrite IH.
Qed.

Lemma trimLeft_list (l : list ascii) :
  trimLeftBytes (string_of_list_ascii l) " " = "" -> Forall (eq " "%char) l.
Proof.
  induction l as [|c l IH]; simpl; [constructor|].
  destruct (Ascii.eqb c " ") eqn:E; simpl; [|discriminate].
  apply Ascii.eqb_eq in E; subst c; intro H; constructor; auto.
Qed.

Lemma reverse_empty (s : string) : reverse s = "" -> s = "".
Proof.
  unfold reverse; intro H.
  rewrite <- (string_of_list_ascii_of_string s).
  destruct (list_ascii_of_string s) as [|c l] eqn:E; [reflexivity|].
  simpl in H; destruct (app (rev l) [c]) eqn:E2; [|discriminate].
  now destruct l; simpl in E2; [|apply app_eq_nil in E2 as [_ ?]].
Qed.

Lemma trimLeft_head (s : string) :
  trimLeftBytes s " " = "" \/ exists c s', trimLeftBytes s " " = String c s' /\ Ascii.eqb c " " = false.
Proof.
  induction s as [|c s IH]; simpl; [now left|].
  destruct (Ascii.eqb c " ") eqn:E; simpl; [exact IH|right; eauto].
Qed.

Lemma Trim_blank (s : string) : Trim s " " = "" -> trimLeftBytes s " " = "".
Proof.
  unfold Trim, trimRightBytes; intro H; apply reverse_empty in H.
  unfold reverse in H; apply trimLeft_list in H; apply Forall_rev in H; rewrite rev_involutive in H.
  destruct (trimLeft_head s) as [?|[c [s' [E Hc]]]]; [assumption|].
  rewrite E in H; simpl in H; inversion H; subst; discriminate.
Qed.

Lemma Trim_ToLower_blank (s : string) : Trim s " " = "" -> Trim (ToLower s) " " = "".
Proof. intro H; now rewrite (trimLeft_blank_ToLower _ (Trim_blank _ H)). Qed.

Lemma blank_not_tls (s : string) : Trim s " " = "" -> String.eqb s tls = false.
Proof.
  intro H; destruct (String.eqb s tls) eqn:E; [|reflexivity].
  apply String.eqb_eq in E; subst; discriminate.
Qed.

Lemma not_tls_of_lower (s : string) :
  String.eqb (ToLower s) tls = false -> String.eqb s tls = false.
Proof.
  intro H; destruct (String.eqb s tls) eqn:E; [|reflexivity].
  now rewrite (ToLower_tls _ E) in H.
Qed.

Section SetConfigurationFacts.
Variable SaramaConfig : Type.
Variable setTLSConfiguration :
  ClientConfig -> SaramaConfig -> ClientConfig * SaramaConfig * option string.
Variable setKerberosConfiguration :
  KerberosConfig -> SaramaConfig -> KerberosConfig * SaramaConfig.
Variable setPlainTextConfiguration :
  PlainTextConfig -> SaramaConfig -> PlainTextConfig * SaramaConfig * option string.


(** X8: an empty or all-space method is accepted as [none]: only the TLS
    setup (run when TLS is not insecure) may fail, and no Kerberos or
    plaintext setup is done. *)
Theorem SetConfiguration_blank (config : AuthenticationConfig) (sc : SaramaConfig) :
  Trim (Authentication config) " " = "" ->
  SetConfiguration setTLSConfiguration setKerberosConfiguration setPlainTextConfiguration config sc =
  if Insecure (TLS config) then (config, sc, None)
  else let '(t, sc', e) := setTLSConfiguration (TLS config) sc in (withTLS config t, sc', e).
Proof.
  intro H; unfold SetConfiguration.
  rewrite (Trim_ToLower_blank _ H), (blank_not_tls _ H); simpl.
  destruct (Insecure (TLS config)); simpl; [reflexivity|].
  destruct (setTLSConfiguration (TLS config) sc) as [[t sc'] [e|]]; reflexivity.
Qed.

(** X9: the methods [none], [kerberos] and [plaintext] are matched without
    regard to case: any ASCII spelling behaves as the lower-case one. *)
Theorem SetConfiguration_case_insensitive (config : AuthenticationConfig) (sc : SaramaConfig) :
  isASCII (Authentication config) = true ->
  In (ToLower (Authentication config)) [none; kerberos; plaintext] ->
  SetConfiguration setTLSConfiguration setKerberosConfiguration setPlainTextConfiguration config sc =
  let '(c, sc', e) := SetConfiguration setTLSConfiguration setKerberosConfiguration setPlainTextConfiguration (withAuthentication config (ToLower (Authentication config))) sc in
  (withAuthentication c (Authentication config), sc', e).
Proof.
  intros _ Hin.
  assert (Hl : String.eqb (ToLower (Authentication config)) tls = false)
    by (destruct Hin as [H|[H|[H|[]]]]; rewrite <- H; reflexivity).
  pose proof (not_tls_of_lower _ Hl) as Ha.
  destruct config as [a k t p]; simpl in *.
  unfold SetConfiguration; simpl; rewrite ToLower_idem, Ha, Hl.
  destruct Hin as [H|[H|[H|[]]]]; rewrite <- H; simpl;
  destruct (Insecure t); simpl;
  try destruct (setTLSConfiguration t sc) as [[t' sc1] [e|]]; simpl;
  try destruct (setKerberosConfiguration k _) as [k' sc2]; simpl;
  try destruct (setPlainTextConfiguration p _) as [[p' sc2] e2]; reflexivity.
Qed.

(** X10: a non-blank ASCII method that is none of [none], [kerberos], [tls],
    [plaintext] after lowering (a method padded with spaces included) fails:
    with the TLS setup's error if that ran and failed, otherwise with the
    unknown-method error naming the method as configured. *)
Theorem SetConfiguration_unknown (config : AuthenticationConfig) (sc : SaramaConfig) :
  isASCII (Authentication config) = true ->
  Trim (ToLower (Authentication config)) " " <> "" ->
  ~ In (ToLower (Authentication config)) authTypes ->
  snd (SetConfiguration setTLSConfiguration setKerberosConfiguration setPlainTextConfiguration config sc) =
  Some (if Insecure (TLS config) then unknownAuthError (Authentication config)
        else match snd (setTLSConfiguration (TLS config) sc) with
             | Some e => e
             | None => unknownAuthError (Authentication config)
             end).
Proof.
  intros _ Htrim Hin.
  assert (Hne : forall m, In m authTypes -> String.eqb (ToLower (Authentication config)) m = false).
  { intros m Hm; destruct (String.eqb _ m) eqn:E; [|reflexivity].
    apply String.eqb_eq in E; subst; contradiction. }
  pose proof (not_tls_of_lower _ (Hne tls ltac:(simpl; tauto))) as Ha.
  destruct config as [a k t p]; simpl in *.
  unfold SetConfiguration; simpl; rewrite Ha.
  destruct (String.eqb (Trim (ToLower a) " ") "") eqn:E;
    [apply String.eqb_eq in E; contradiction|].
  rewrite (Hne none), (Hne tls), (Hne kerberos), (Hne plaintext) by (simpl; tauto).
  destruct (Insecure t); simpl; [reflexivity|].
  destruct (setTLSConfiguration t sc) as [[t' sc1] [e|]]; reflexivity.
Qed.

Section InitFromViperFacts.
Variable GetString : string -> string.
Variable GetBool : string -> bool.
Variable tlsInitFromViper : string -> ClientConfig * option string.
Variables suffixAuthentication kerberosPrefix suffixKerberosServiceName
  suffixKerberosRealm suffixKerberosUseKeyTab suffixKerberosUsername
  suffixKerberosPassword suffixKerberosConfig suffixKerberosKeyTab
  suffixKerberosDisablePAFXFAST plainTextPrefix suffixPlainTextUsername
  suffixPlainTextPassword suffixPlainTextMechanism : string.

(** X13: after a successful [InitFromViper] whose method flag is [tls] or
    whose [.tls.enabled] flag is set, TLS is secure with the system CAs, and
    a later [SetConfiguration] always runs the TLS setup and reports its
    failure. *)
Theorem InitFromViper_secure_tls (config cfg : AuthenticationConfig) (configPrefix : string) :
  InitFromViper GetString GetBool tlsInitFromViper suffixAuthentication kerberosPrefix
    suffixKerberosServiceName suffixKerberosRealm suffixKerberosUseKeyTab suffixKerberosUsername
    suffixKerberosPassword suffixKerberosConfig suffixKerberosKeyTab suffixKerberosDisablePAFXFAST
    plainTextPrefix suffixPlainTextUsername suffixPlainTextPassword suffixPlainTextMechanism
    config configPrefix = (cfg, None) ->
  (GetString (configPrefix ++ suffixAuthentication) = tls \/
   GetBool (configPrefix ++ ".tls.enabled") = true) ->
  Insecure (TLS cfg) = false /\ IncludeSystemCACertsPool (TLS cfg) = true /\
  (forall sc t sc' e,
     setTLSConfiguration (TLS cfg) sc = (t, sc', Some e) ->
     SetConfiguration setTLSConfiguration setKerberosConfiguration setPlainTextConfiguration cfg sc =
     (withTLS cfg t, sc', Some e)).
Proof.
  unfold InitFromViper; destruct (tlsInitFromViper configPrefix) as [tc [err|]]; [discriminate|].
  simpl; intros E Hg; injection E as <-; simpl.
  assert (Hs : (if String.eqb (GetString (configPrefix ++ suffixAuthentication)) tls then secureTLS tc
                else if GetBool (configPrefix ++ ".tls.enabled") then secureTLS tc else tc) = secureTLS tc)
    by (destruct Hg as [H|H]; rewrite H; [reflexivity|destruct (String.eqb _ tls); reflexivity]).
  rewrite Hs; simpl; split; [reflexivity|split; [reflexivity|]].
  intros sc t sc' e Ht; unfold SetConfiguration; simpl; rewrite orb_true_r, Ht; reflexivity.
Qed.

(** X14: the comparisons with [tls] before the lower-casing are case
    sensitive: a method flag [TLS] with TLS disabled keeps the insecure TLS
    flags, and [SetConfiguration] then succeeds without any TLS setup. *)
Theorem InitFromViper_uppercase_TLS (config cfg : AuthenticationConfig) (configPrefix : string)
    (tc : ClientConfig) (sc : SaramaConfig) :
  GetString (configPrefix ++ suffixAuthentication) = "TLS" ->
  GetBool (configPrefix ++ ".tls.enabled") = false ->
  tlsInitFromViper configPrefix = (tc, None) -> Insecure tc = true ->
  InitFromViper GetString GetBool tlsInitFromViper suffixAuthentication kerberosPrefix
    suffixKerberosServiceName suffixKerberosRealm suffixKerberosUseKeyTab suffixKerberosUsername
    suffixKerberosPassword suffixKerberosConfig suffixKerberosKeyTab suffixKerberosDisablePAFXFAST
    plainTextPrefix suffixPlainTextUsername suffixPlainTextPassword suffixPlainTextMechanism
    config configPrefix = (cfg, None) ->
  TLS cfg = tc /\
  SetConfiguration setTLSConfiguration setKerberosConfiguration setPlainTextConfiguration cfg sc =
  (cfg, sc, None).
Proof.
  intros Ha He Ht Hi; unfold InitFromViper; rewrite Ht, Ha, He; simpl.
  intro E; injection E as <-; simpl; split; [reflexivity|].
  unfold SetConfiguration; simpl; rewrite Hi; reflexivity.
Qed.
End InitFromViperFacts.
End SetConfigurationFacts.

End KafkaAuthFacts.

Section Witnesses.

Import Warnings KafkaAuth KafkaAuth.Krb KafkaAuth.Plain AuthFixtures.

Lemma AddWarnings_GetWarnings_witness :
  exists attrs', AddWarnings warningsKey spanAttrs ["span has no trace ID"] = Some attrs' /\
    GetWarnings warningsKey attrs' = Some ["clock skew adjusted"; "span has no trace ID"].
Proof.
  exact (AddWarnings_GetWarnings warningsKey spanAttrs ["span has no trace ID"]
           (or_intror (ex_intro _ _ eq_refl))).
Defined.

Lemma AddWarnings_compose_witness :
  AddWarnings warningsKey
    [("http.method", VScalar (SStr "GET"));
     (warningsKey, VSlice [VScalar (SStr "clock skew adjusted"); VScalar (SStr "a")])] ["b"] =
  AddWarnings warningsKey spanAttrs ["a"; "b"].
Proof. exact (AddWarnings_compose warningsKey spanAttrs _ ["a"] ["b"] eq_refl). Defined.

Lemma AddWarnings_other_keys_witness :
  Get "http.method"
    [("http.method", VScalar (SStr "GET"));
     (warningsKey, VSlice [VScalar (SStr "clock skew adjusted"); VScalar (SStr "a")])] =
  Get "http.method" spanAttrs.
Proof.
  exact (AddWarnings_other_keys warningsKey "http.method" spanAttrs _ ["a"] eq_refl
           ltac:(discriminate)).
Defined.

Lemma Warnings_nil_vs_empty_witness :
  GetWarnings warningsKey [("http.method", VScalar (SStr "GET"))] = None /\
  exists attrs', AddWarnings warningsKey [("http.method", VScalar (SStr "GET"))] [] = Some attrs' /\
    GetWarnings warningsKey attrs' = Some [].
Proof. exact (Warnings_nil_vs_empty warningsKey [("http.method", VScalar (SStr "GET"))] eq_refl). Defined.

Lemma SetConfiguration_blank_witness :
  SetConfiguration setTLSLog setKerberosLog setPlainTextLog (authConfig "   " (tlsClient false "ca.pem")) [] =
  (authConfig "   " (tlsClient false "ca.pem"), ["tls"], None).
Proof.
  exact (SetConfiguration_blank Sarama setTLSLog setKerberosLog setPlainTextLog
           (authConfig "   " (tlsClient false "ca.pem")) [] eq_refl).
Defined.

Lemma SetConfiguration_case_insensitive_witness :
  SetConfiguration setTLSLog setKerberosLog setPlainTextLog (authConfig "KERBEROS" (tlsClient false "ca.pem")) [] =
  (authConfig "KERBEROS" (tlsClient false "ca.pem"), ["kerberos"; "tls"], None).
Proof.
  exact (SetConfiguration_case_insensitive Sarama setTLSLog setKerberosLog setPlainTextLog
           (authConfig "KERBEROS" (tlsClient false "ca.pem")) [] eq_refl
           (or_intror (or_introl eq_refl))).
Defined.

Lemma SetConfiguration_unknown_witness :
  snd (SetConfiguration setTLSLog setKerberosLog setPlainTextLog (authConfig " tls " (tlsClient false "ca.pem")) []) =
  Some "Unknown/Unsupported authentication method  tls  to kafka cluster".
Proof.
  exact (SetConfiguration_unknown Sarama setTLSLog setKerberosLog setPlainTextLog
           (authConfig " tls " (tlsClient false "ca.pem")) [] eq_refl
           ltac:(vm_compute; discriminate) ltac:(vm_compute; intuition discriminate)).
Defined.

Lemma InitFromViper_secure_tls_witness :
  Insecure (TLS (fst (consumerInit "kerberos" true (tlsClient true "missing.pem", None)
                        (authConfig "" (tlsClient true ""))))) = false.
Proof.
  exact (proj1 (InitFromViper_secure_tls Sarama setTLSLog setKerberosLog setPlainTextLog
           (viperStrings "kerberos") (viperBools true) (tlsFlags (tlsClient true "missing.pem", None))
           ".authentication" ".kerberos" ".service-name" ".realm" ".use-keytab" ".username"
           ".password" ".config-file" ".keytab-file" ".disable-fast-negotiation" ".plaintext"
           ".username" ".password" ".mechanism"
           (authConfig "" (tlsClient true "")) _ "kafka.consumer" eq_refl (or_intror eq_refl))).
Defined.

Lemma InitFromViper_uppercase_TLS_witness :
  SetConfiguration setTLSLog setKerberosLog setPlainTextLog
    (fst (consumerInit "TLS" false (tlsClient true "", None) (authConfig "" (tlsClient false "")))) [] =
  (fst (consumerInit "TLS" false (tlsClient true "", None) (authConfig "" (tlsClient false ""))), [], None).
Proof.
  exact (proj2 (InitFromViper_uppercase_TLS Sarama setTLSLog setKerberosLog setPlainTextLog
           (viperStrings "TLS") (viperBools false) (tlsFlags (tlsClient true "", None))
           ".authentication" ".kerberos" ".service-name" ".realm" ".use-keytab" ".username"
           ".password" ".config-file" ".keytab-file" ".disable-fast-negotiation" ".plaintext"
           ".username" ".password" ".mechanism"
           (authConfig "" (tlsClient false "")) _ "kafka.consumer" (tlsClient true "") []
           eq_refl eq_refl eq_refl eq_refl eq_refl)).
Defined.

End Witnesses.
